(** * IPython/kernel/adapter.py: adapters between message-spec versions 4 and 5

    A shallow embedding of the module and the properties its specification
    states about it.

    Modelling conventions.
    - The semantics is that of Python 3 (3.6 or later).
    - A Python value that can occur in a message is a [pyval]: [None], a
      bool, an int, a str, a list or a dict with str keys (a JSON object);
      an instance of an adapter class is a value too, since a bound method
      passes it as an argument.  Floats are not modelled.  A str is a
      sequence of code points below 256 ([string]); [len] is
      [String.length].
    - A dict is a [gmap string pyval]: Python compares dicts without regard
      to insertion order, and so does [=] on [gmap].  The only place where
      the module could observe the order of a dict is when it iterates one
      where the protocol puts a list; there the model iterates in the order
      of [map_to_list].
    - A message is a tree: [msg['header']], [msg['content']] and the values
      below them are distinct objects.  An in-place mutation of
      [msg['content']] is the functional update of the "content" entry.
    - A call that raises is [Err e]; the state a raising call leaves behind
      is not modelled.
    - What the module imports ([json], [token_at_cursor]) and what the
      interpreter supplies (attributes inherited from [object], [str] of a
      container) are the fields of the class [Env]. *)

From stdpp Require Import gmap strings list fin_maps.
From Stdlib Require Import ZArith String Ascii DecimalString DecimalPos Lia.

#[local] Set Warnings "-register-all".
#[local] Open Scope string_scope.
#[local] Open Scope Z_scope.

(** ** Exceptions and results *)

Inductive exc :=
| KeyError | TypeError | ValueError | AttributeError | IndexError
| UnboundLocalError | RecursionError.

Inductive result (A : Type) :=
| Ok (a : A)
| Err (e : exc).
Arguments Ok {A} a.
Arguments Err {A} e.

#[export] Instance result_ret : MRet result := @Ok.
#[export] Instance result_bind : MBind result := fun A B f r =>
  match r with
  | Ok a => f a
  | Err e => Err e
  end.

(** [try: ... except Exception: pass] around a computation that updates a
    value: on any exception the value is the one before the [try]. *)
Definition try_pass {A} (r : result A) (before : A) : A :=
  match r with
  | Ok a => a
  | Err _ => before
  end.

(** ** Values *)

(** The classes of the module. *)
Inductive adapter := Adapter | V5toV4 | V4toV5.

Inductive pyval :=
| VNone
| VBool (b : bool)
| VInt (n : Z)
| VStr (s : string)
| VList (l : list pyval)
| VDict (d : gmap string pyval)
| VObj (self : adapter)  (* an instance of a class of the module *).

(** [v == s] for a str literal [s]. *)
Definition is_str (s : string) (v : pyval) : bool :=
  match v with
  | VStr s' => String.eqb s' s
  | _ => false
  end.

(** Truth value of [v] in [if v:]. *)
Definition truthy (v : pyval) : bool :=
  match v with
  | VNone => false
  | VBool b => b
  | VInt n => negb (n =? 0)
  | VStr s => negb (String.eqb s "")
  | VList l => negb (bool_decide (l = []))
  | VDict d => negb (bool_decide (d = ∅))
  | VObj _ => true
  end.

(** A bool is an int in arithmetic and comparisons. *)
Definition as_int (v : pyval) : option Z :=
  match v with
  | VInt n => Some n
  | VBool b => Some (Z.b2z b)
  | _ => None
  end.

(** ** Strings *)

Definition len (s : string) : Z := Z.of_nat (String.length s).

(** [s.split('.')] *)
Fixpoint split_dot (s : string) : list string :=
  match s with
  | EmptyString => [""]
  | String c r =>
      if Ascii.eqb c "." then "" :: split_dot r
      else match split_dot r with
           | h :: t => String c h :: t
           | [] => [String c ""]
           end
  end.

(** [sep.join(l)] for a list of str. *)
Definition join (sep : string) (l : list string) : string := String.concat sep l.

(** Line boundaries of [str.splitlines] among the code points below 256:
    \n \v \f \r \x1c \x1d \x1e \x85 (and the pair \r\n). *)
Definition is_linebreak (c : ascii) : bool :=
  let n := nat_of_ascii c in
  ((10 <=? n) && (n <=? 13) || (28 <=? n) && (n <=? 30) || (n =? 133))%nat.

(** [s.splitlines(True)]: the lines of [s], each with its terminator. *)
Fixpoint splitlines (s : string) : list string :=
  match s with
  | EmptyString => []
  | String c r =>
      if is_linebreak c then
        if Ascii.eqb c "013" then
          match r with
          | String "010" r' => String c (String "010" "") :: splitlines r'
          | _ => String c "" :: splitlines r
          end
        else String c "" :: splitlines r
      else match splitlines r with
           | [] => [String c ""]
           | l :: ls => String c l :: ls
           end
  end.

(** [s[:n]]: a negative [n] counts from the end. *)
Definition slice_to {A} (prefix : nat → A) (size : nat) (n : Z) : A :=
  if 0 <=? n then prefix (Z.to_nat n)
  else prefix (Z.to_nat (Z.of_nat size + n)).

Definition str_slice_to (s : string) (n : Z) : string :=
  slice_to (fun k => String.substring 0 k s) (String.length s) n.

Definition list_slice_to {A} (l : list A) (n : Z) : list A :=
  slice_to (fun k => take k l) (List.length l) n.

(** [sub in s] for two str. *)
Definition str_contains (sub s : string) : bool :=
  match String.index 0 sub s with
  | Some _ => true
  | None => false
  end.

(** The one-character strings of [s], as iterating a str yields them. *)
Definition chars (s : string) : list string :=
  (fun c => String c "") <$> list_ascii_of_string s.

(** *** [int(s)] and [str(n)] *)

(** White space that [int()] strips, among the code points below 256:
    \t \n \v \f \r and the space, and of the code points from 128 on those
    that are Unicode white space, \x85 and \xa0.  The separators \x1c to
    \x1f, which [str.strip()] removes, are not stripped by [int()]:
    [int('\x1f5')] raises ValueError. *)
Definition is_space (c : ascii) : bool :=
  let n := nat_of_ascii c in
  ((9 <=? n) && (n <=? 13) || (n =? 32) || (n =? 133) || (n =? 160))%nat.

Definition digit_val (c : ascii) : option Z :=
  let n := nat_of_ascii c in
  if ((48 <=? n) && (n <=? 57))%nat then Some (Z.of_nat n - 48) else None.

Fixpoint lstrip (cs : list ascii) : list ascii :=
  match cs with
  | c :: r => if is_space c then lstrip r else cs
  | [] => []
  end.
Definition strip (cs : list ascii) : list ascii := rev (lstrip (rev (lstrip cs))).

(** Digits with single underscores between them (Python 3.6 and later);
    [after_digit] tells whether the previous character was a digit. *)
Fixpoint digits_acc (acc : Z) (after_digit : bool) (cs : list ascii) : option Z :=
  match cs with
  | [] => if after_digit then Some acc else None
  | c :: r =>
      match digit_val c with
      | Some d => digits_acc (10 * acc + d) true r
      | None =>
          if Ascii.eqb c "_" && after_digit then digits_acc acc false r
          else None
      end
  end.

(** An optional sign, then the digits. *)
Definition signed_digits (cs : list ascii) : option Z :=
  match cs with
  | "-"%char :: ds => Z.opp <$> digits_acc 0 false ds
  | "+"%char :: ds => digits_acc 0 false ds
  | ds => digits_acc 0 false ds
  end.

(** [int(s)]; [None] is [ValueError]. *)
Definition py_int (s : string) : option Z :=
  signed_digits (strip (list_ascii_of_string s)).

(** [str(n)] for an int. *)
Definition str_of_int (n : Z) : string := NilZero.string_of_int (Z.to_int n).


(** ** Operations on values

    Each operation is the Python expression named in its comment, for every
    type the receiver can have. *)

(** [obj[k]] for a str [k]. *)
Definition getitem (obj : pyval) (k : string) : result pyval :=
  match obj with
  | VDict d =>
      match d !! k with
      | Some v => Ok v
      | None => Err KeyError
      end
  | _ => Err TypeError
  end.

(** [obj[k] = v] for a str [k]; the result is [obj] after the assignment. *)
Definition setitem (obj : pyval) (k : string) (v : pyval) : result pyval :=
  match obj with
  | VDict d => Ok (VDict (<[k := v]> d))
  | _ => Err TypeError
  end.

(** [k in obj] for a str [k]. *)
Definition contains (k : string) (obj : pyval) : result bool :=
  match obj with
  | VDict d => Ok (bool_decide (is_Some (d !! k)))
  | VList l => Ok (existsb (is_str k) l)
  | VStr s => Ok (str_contains k s)
  | _ => Err TypeError
  end.

(** [obj.pop(k, dflt)]: the value popped and [obj] afterwards. *)
Definition pop_default (obj : pyval) (k : string) (dflt : pyval)
  : result (pyval * pyval) :=
  match obj with
  | VDict d => Ok (default dflt (d !! k), VDict (delete k d))
  | VList _ => Err TypeError
  | _ => Err AttributeError
  end.

(** [obj.pop(k)]: the value popped and [obj] afterwards. *)
Definition pop (obj : pyval) (k : string) : result (pyval * pyval) :=
  match obj with
  | VDict d =>
      match d !! k with
      | Some v => Ok (v, VDict (delete k d))
      | None => Err KeyError
      end
  | VList _ => Err TypeError
  | _ => Err AttributeError
  end.

(** [obj.get(k, dflt)] *)
Definition get_default (obj : pyval) (k : string) (dflt : pyval) : result pyval :=
  match obj with
  | VDict d => Ok (default dflt (d !! k))
  | _ => Err AttributeError
  end.

(** [obj.setdefault(k, dflt)]: the value returned and [obj] afterwards. *)
Definition setdefault (obj : pyval) (k : string) (dflt : pyval)
  : result (pyval * pyval) :=
  match obj with
  | VDict d =>
      match d !! k with
      | Some v => Ok (v, obj)
      | None => Ok (dflt, VDict (<[k := dflt]> d))
      end
  | _ => Err AttributeError
  end.

(** [len(v)] *)
Definition py_len (v : pyval) : result Z :=
  match v with
  | VStr s => Ok (len s)
  | VList l => Ok (Z.of_nat (List.length l))
  | VDict d => Ok (Z.of_nat (size d))
  | _ => Err TypeError
  end.

(** [a - b] *)
Definition py_sub (a b : pyval) : result Z :=
  match as_int a, as_int b with
  | Some x, Some y => Ok (x - y)
  | _, _ => Err TypeError
  end.

(** [v[0]].  A dict has str keys only, so the key [0] is never present. *)
Definition getitem0 (v : pyval) : result pyval :=
  match v with
  | VList (x :: _) => Ok x
  | VList [] => Err IndexError
  | VStr (String c _) => Ok (VStr (String c ""))
  | VStr EmptyString => Err IndexError
  | VDict _ => Err KeyError
  | _ => Err TypeError
  end.

(** [v[:n]] *)
Definition py_slice_to (v : pyval) (n : Z) : result pyval :=
  match v with
  | VStr s => Ok (VStr (str_slice_to s n))
  | VList l => Ok (VList (list_slice_to l n))
  | _ => Err TypeError
  end.

(** The elements that [for x in v] yields. *)
Definition py_iter (v : pyval) : result (list pyval) :=
  match v with
  | VList l => Ok l
  | VStr s => Ok (VStr <$> chars s)
  | VDict d => Ok (VStr <$> (map_to_list d).*1)
  | _ => Err TypeError
  end.

(** [x in {'error', 'aborted'}]: membership in a set hashes [x]. *)
Definition in_error_statuses (x : pyval) : result bool :=
  match x with
  | VList _ | VDict _ => Err TypeError
  | _ => Ok (is_str "error" x || is_str "aborted" x)
  end.

(** [sep.join(l)] for a list of values: every element must be a str. *)
Fixpoint strs_of (l : list pyval) : result (list string) :=
  match l with
  | [] => Ok []
  | VStr s :: r => ss ← strs_of r; Ok (s :: ss)
  | _ :: _ => Err TypeError
  end.

Definition py_join (sep : string) (l : list pyval) : result pyval :=
  ss ← strs_of l; Ok (VStr (join sep ss)).

(** ** The environment of the module *)

Class Env := {
  (** [json.dumps] and [json.loads] *)
  json_dumps : pyval → result pyval;
  json_loads : pyval → result pyval;
  (** [IPython.utils.tokenutil.token_at_cursor(cell, cursor_pos)] *)
  token_at_cursor : pyval → pyval → result pyval;
  (** [getattr(self, name, None)] for a [name] that no class body of the
      module defines: [None] when [object] has no such attribute either,
      otherwise what calling the attribute with one argument does. *)
  object_attr : adapter → string → option (pyval → result pyval);
  (** [str(v)] for a list, a dict or an instance. *)
  repr_str : pyval → string;
}.

(** [str(v)] *)
Definition py_str `{!Env} (v : pyval) : string :=
  match v with
  | VNone => "None"
  | VBool true => "True"
  | VBool false => "False"
  | VInt n => str_of_int n
  | VStr s => s
  | VList _ | VDict _ | VObj _ => repr_str v
  end.

(** ** [code_to_line] *)

(** The [for] loop: [line] is the loop variable ([None] while unbound). *)
Fixpoint code_to_line_loop (lines : list string) (line : option string)
  (cursor_pos : Z) : option string * Z :=
  match lines with
  | [] => (line, cursor_pos)
  | l :: rest =>
      let n := len l in
      if cursor_pos >? n then code_to_line_loop rest (Some l) (cursor_pos - n)
      else (Some l, cursor_pos)
  end.

Definition code_to_line (code : string) (cursor_pos : Z) : result (string * Z) :=
  match code_to_line_loop (splitlines code) None cursor_pos with
  | (Some line, cursor_pos) => Ok (line, cursor_pos)
  | (None, _) => Err UnboundLocalError
  end.

(** [code_to_line] on the values a handler passes.  [code] must have
    [splitlines]; the comparison [cursor_pos > n] happens only when there
    is a line, and needs a number.  A [cursor_pos] that no iteration
    subtracted from is returned as it was passed. *)
Definition code_to_line_val (code cursor_pos : pyval) : result (pyval * pyval) :=
  match code with
  | VStr s =>
      match splitlines s with
      | [] => Err UnboundLocalError
      | _ =>
          match as_int cursor_pos with
          | Some p =>
              '(line, rel) ← code_to_line s p;
              Ok (VStr line, if rel =? p then cursor_pos else VInt rel)
          | None => Err TypeError
          end
      end
  | _ => Err AttributeError
  end.

(** ** The version utility *)

Definition _version_str_to_list (version : string) : list Z :=
  omap py_int (split_dot version).

(** [".".join(map(str, v))] for a list of ints, as [V4toV5.kernel_info_reply]
    writes it. *)
Definition version_list_to_str (v : list Z) : string :=
  join "." (str_of_int <$> v).

(** [_version_str_to_list(version)] on a value: [split] exists on str only. *)
Definition _version_str_to_list_val (version : pyval) : result pyval :=
  match version with
  | VStr s => Ok (VList (VInt <$> _version_str_to_list s))
  | _ => Err AttributeError
  end.

(** [".".join(map(str, v))] on a value. *)
Definition version_list_to_str_val `{!Env} (v : pyval) : result pyval :=
  l ← py_iter v; Ok (VStr (join "." (py_str <$> l))).

(** [for x in xs: body], threading the state the body updates. *)
Fixpoint for_each {A S} (xs : list A) (body : A → S → result S) (s : S) : result S :=
  match xs with
  | [] => Ok s
  | x :: r => s' ← body x s; for_each r body s'
  end.

(** [if key in content: content[key] = conv(content[key])] *)
Definition convert_if_present (conv : pyval → result pyval) (key : string)
  (content : pyval) : result pyval :=
  b ← contains key content;
  if b : bool then
    v ← getitem content key;
    v' ← conv v;
    setitem content key v'
  else Ok content.

(** The key under which a dict of the model stores [v].  Python hashes the
    key: a list or a dict raises TypeError.  It also accepts [None], a bool,
    an int or an instance, which a dict with str keys cannot hold; the model
    raises TypeError for them as well. *)
Definition dict_key (v : pyval) : result string :=
  match v with
  | VStr s => Ok s
  | _ => Err TypeError
  end.

(** [d.update(other)]: [other] is a dict, or an iterable of pairs. *)
Definition update_pair (e : pyval) (d : pyval) : result pyval :=
  match py_iter e with
  | Ok [k; v] => k' ← dict_key k; setitem d k' v
  | Ok _ => Err ValueError
  | Err e => Err e
  end.

Definition py_update (d other : pyval) : result pyval :=
  match d with
  | VDict m =>
      match other with
      | VDict m' => Ok (VDict (m' ∪ m))
      | _ => l ← py_iter other; for_each l update_pair d
      end
  | _ => Err AttributeError
  end.

(** ** [class Adapter] *)

(** [def handle_reply_status_error(msg): return msg].  The definition has one
    parameter and no [self]: it returns its only argument, and a call with
    any other number of arguments raises TypeError. *)
Definition handle_reply_status_error (args : list pyval) : result pyval :=
  match args with
  | [msg] => Ok msg
  | _ => Err TypeError
  end.

(** Calling a function of a class body through an instance, [self.f(args)],
    passes the instance as the first argument. *)
Definition call_bound (f : list pyval → result pyval) (self : adapter)
  (args : list pyval) : result pyval :=
  f (VObj self :: args).

(** [x in m] for a dict [m] with str keys hashes [x]. *)
Definition in_map (x : pyval) (m : gmap string string) : result (option string) :=
  match x with
  | VList _ | VDict _ => Err TypeError
  | VStr s => Ok (m !! s)
  | _ => Ok None
  end.

Module Adapter.

Definition msg_type_map : gmap string string := ∅.

Definition update_header (msg : pyval) : result pyval := Ok msg.

Definition update_metadata (msg : pyval) : result pyval := Ok msg.

(** [msg['msg_type'] = header['msg_type'] = new] assigns the targets from
    left to right; [header] is the object stored at [msg['header']]. *)
Definition update_msg_type (msg_type_map : gmap string string) (msg : pyval)
  : result pyval :=
  header ← getitem msg "header";
  msg_type ← getitem header "msg_type";
  renamed ← in_map msg_type msg_type_map;
  match renamed with
  | Some new =>
      msg ← setitem msg "msg_type" (VStr new);
      header ← setitem header "msg_type" (VStr new);
      setitem msg "header" header
  | None => Ok msg
  end.

End Adapter.

(** ** [class V5toV4(Adapter)] *)

Module V5toV4.

Definition version : string := "4.1".

Definition msg_type_map : gmap string string :=
  list_to_map [
    ("execute_result", "pyout");
    ("execute_input", "pyin");
    ("error", "pyerr");
    ("inspect_request", "object_info_request");
    ("inspect_reply", "object_info_reply")
  ].

Definition update_header (msg : pyval) : result pyval :=
  header ← getitem msg "header";
  '(_, header) ← pop_default header "version" VNone;
  setitem msg "header" header.

(** shell channel *)

Definition kernel_info_reply (msg : pyval) : result pyval :=
  content ← getitem msg "content";
  '(_, content) ← pop_default content "banner" VNone;
  content ← for_each ["language_version"; "protocol_version"]
              (convert_if_present _version_str_to_list_val) content;
  '(implementation, content) ← pop_default content "implementation" (VStr "");
  rename ← (if is_str "ipython" implementation
            then contains "implementation_version" content
            else Ok false);
  content ← (if rename : bool then
               '(v, content) ← pop content "implmentation_version";
               setitem content "ipython_version" v
             else Ok content);
  '(_, content) ← pop_default content "implementation_version" VNone;
  language ← getitem content "language";
  '(_, content) ← setdefault content "implmentation" language;
  setitem msg "content" content.

Definition execute_request (msg : pyval) : result pyval :=
  content ← getitem msg "content";
  '(_, content) ← setdefault content "user_variables" (VList []);
  setitem msg "content" content.

Definition execute_reply (msg : pyval) : result pyval :=
  content ← getitem msg "content";
  '(_, content) ← setdefault content "user_variables" (VDict ∅);
  setitem msg "content" content.

Definition complete_request (msg : pyval) : result pyval :=
  content ← getitem msg "content";
  code ← getitem content "code";
  cursor_pos ← getitem content "cursor_pos";
  '(line, cursor_pos) ← code_to_line_val code cursor_pos;
  setitem msg "content"
    (VDict (<["cursor_pos" := cursor_pos]>
           (<["block" := VNone]>
           (<["line" := line]>
           (<["text" := VStr ""]> ∅))))).

Definition complete_reply (msg : pyval) : result pyval :=
  content ← getitem msg "content";
  '(cursor_start, content) ← pop content "cursor_start";
  '(cursor_end, content) ← pop content "cursor_end";
  match_len ← py_sub cursor_end cursor_start;
  matches ← getitem content "matches";
  first ← getitem0 matches;
  matched_text ← py_slice_to first match_len;
  content ← setitem content "matched_text" matched_text;
  '(_, content) ← pop_default content "metadata" VNone;
  setitem msg "content" content.

Definition object_info_request `{!Env} (msg : pyval) : result pyval :=
  content ← getitem msg "content";
  code ← getitem content "code";
  cursor_pos ← getitem content "cursor_pos";
  _ ← code_to_line_val code cursor_pos;
  oname ← token_at_cursor code cursor_pos;
  detail_level ← getitem content "detail_level";
  setitem msg "content"
    (VDict (<["detail_level" := detail_level]> (<["oname" := oname]> ∅))).

(** inspect_reply can't be easily backward compatible *)
Definition object_info_reply (msg : pyval) : result pyval :=
  setitem msg "content"
    (VDict (<["name" := VStr "unknown"]> (<["found" := VBool false]> ∅))).

(** iopub channel *)

(** The body of the [try] in [display_data]: the subscript, the call and
    the assignment can each raise. *)
Definition display_data_json (conv : pyval → result pyval) (data : pyval)
  : result pyval :=
  v ← getitem data "application/json";
  v' ← conv v;
  setitem data "application/json" v'.

Definition display_data `{!Env} (msg : pyval) : result pyval :=
  content ← getitem msg "content";
  '(_, content) ← setdefault content "source" (VStr "display");
  data ← getitem content "data";
  has_json ← contains "application/json" data;
  let data := if has_json : bool
              then try_pass (display_data_json json_dumps data) data
              else data in
  content ← setitem content "data" data;
  setitem msg "content" content.

(** stdin channel *)

Definition input_request (msg : pyval) : result pyval :=
  content ← getitem msg "content";
  '(_, content) ← pop_default content "password" VNone;
  setitem msg "content" content.

(** The content transforms of the class, by name. *)
Definition handlers `{!Env} : gmap string (pyval → result pyval) :=
  list_to_map [
    ("kernel_info_reply", kernel_info_reply);
    ("execute_request", execute_request);
    ("execute_reply", execute_reply);
    ("complete_request", complete_request);
    ("complete_reply", complete_reply);
    ("object_info_request", object_info_request);
    ("object_info_reply", object_info_reply);
    ("display_data", display_data);
    ("input_request", input_request)
  ].

End V5toV4.

(** ** [class V4toV5(Adapter)] *)

Module V4toV5.

Definition version : string := "5.0".

(** invert message renames above *)
Definition msg_type_map : gmap string string :=
  list_to_map ((fun kv => (kv.2, kv.1)) <$> map_to_list V5toV4.msg_type_map).

Definition update_header (msg : pyval) : result pyval :=
  header ← getitem msg "header";
  header ← setitem header "version" (VStr version);
  setitem msg "header" header.

(** shell channel *)

Definition kernel_info_reply `{!Env} (msg : pyval) : result pyval :=
  content ← getitem msg "content";
  content ← for_each ["language_version"; "protocol_version"; "ipython_version"]
              (convert_if_present version_list_to_str_val) content;
  language ← getitem content "language";
  is_python ← match language with
              | VStr s => Ok (String.prefix "python" s)
              | _ => Err AttributeError
              end;
  move ← (if is_python : bool then contains "ipython_version" content else Ok false);
  content ← (if move : bool then
               content ← setitem content "implementation" (VStr "ipython");
               '(v, content) ← pop content "ipython_version";
               setitem content "implementation_version" v
             else Ok content);
  content ← setitem content "banner" (VStr "");
  setitem msg "content" content.

(** [user_expressions] is the object stored at
    [content['user_expressions']]. *)
Definition execute_request (msg : pyval) : result pyval :=
  content ← getitem msg "content";
  '(user_variables, content) ← pop_default content "user_variables" (VList []);
  '(user_expressions, content) ← setdefault content "user_expressions" (VDict ∅);
  vs ← py_iter user_variables;
  user_expressions ← for_each vs
                       (fun v ue => k ← dict_key v; setitem ue k v)
                       user_expressions;
  content ← setitem content "user_expressions" user_expressions;
  setitem msg "content" content.

Definition execute_reply (msg : pyval) : result pyval :=
  content ← getitem msg "content";
  '(user_expressions, content) ← setdefault content "user_expressions" (VDict ∅);
  '(user_variables, content) ← pop_default content "user_variables" (VDict ∅);
  user_expressions ← (if truthy user_variables
                      then py_update user_expressions user_variables
                      else Ok user_expressions);
  content ← setitem content "user_expressions" user_expressions;
  setitem msg "content" content.

Definition complete_request (msg : pyval) : result pyval :=
  old_content ← getitem msg "content";
  line ← getitem old_content "line";
  cursor_pos ← getitem old_content "cursor_pos";
  setitem msg "content"
    (VDict (<["cursor_pos" := cursor_pos]> (<["code" := line]> ∅))).

Definition complete_reply (msg : pyval) : result pyval :=
  content ← getitem msg "content";
  matches ← getitem content "matches";
  matched_text ← getitem content "matched_text";
  n ← py_len matched_text;
  setitem msg "content"
    (VDict (<["metadata" := VDict ∅]>
           (<["cursor_end" := VNone]>
           (<["cursor_start" := VInt (- n)]>
           (<["matches" := matches]>
           (<["status" := VStr "ok"]> ∅)))))).

Definition inspect_request (msg : pyval) : result pyval :=
  content ← getitem msg "content";
  name ← getitem content "oname";
  n ← py_len name;
  detail_level ← getitem content "detail_level";
  setitem msg "content"
    (VDict (<["detail_level" := detail_level]>
           (<["cursor_pos" := VInt n]>
           (<["code" := name]> ∅)))).

(** One [for key in (...)] loop of [inspect_reply]: the value of the first
    key whose value is true, appended to [lines]. *)
Fixpoint first_true (keys : list string) (content : pyval) (lines : list pyval)
  : result (list pyval) :=
  match keys with
  | [] => Ok lines
  | key :: rest =>
      v ← get_default content key (VBool false);
      if truthy v then
        v ← getitem content key;
        Ok (lines ++ [v])%list
      else first_true rest content lines
  end.

(** inspect_reply can't be easily backward compatible *)
Definition inspect_reply (msg : pyval) : result pyval :=
  content ← getitem msg "content";
  found ← getitem content "found";
  name ← getitem content "name";
  data ← (if truthy found then
            lines ← first_true ["call_def"; "init_definition"; "definition"]
                      content [];
            lines ← first_true ["call_docstring"; "init_docstring"; "docstring"]
                      content lines;
            let lines := if bool_decide (lines = [])
                         then [VStr "<empty docstring>"] else lines in
            text ← py_join (String "010" "") lines;
            Ok (<["text/plain" := text]> ∅)
          else Ok ∅);
  setitem msg "content"
    (VDict (<["metadata" := VDict ∅]>
           (<["data" := VDict data]>
           (<["name" := name]>
           (<["found" := found]>
           (<["status" := VStr "ok"]> ∅)))))).

(** iopub channel *)

Definition display_data `{!Env} (msg : pyval) : result pyval :=
  content ← getitem msg "content";
  '(_, content) ← pop_default content "source" VNone;
  data ← getitem content "data";
  has_json ← contains "application/json" data;
  let data := if has_json : bool
              then try_pass (V5toV4.display_data_json json_loads data) data
              else data in
  content ← setitem content "data" data;
  setitem msg "content" content.

(** stdin channel *)

Definition input_request (msg : pyval) : result pyval :=
  content ← getitem msg "content";
  '(_, content) ← setdefault content "password" (VBool false);
  setitem msg "content" content.

(** The content transforms of the class, by name. *)
Definition handlers `{!Env} : gmap string (pyval → result pyval) :=
  list_to_map [
    ("kernel_info_reply", kernel_info_reply);
    ("execute_request", execute_request);
    ("execute_reply", execute_reply);
    ("complete_request", complete_request);
    ("complete_reply", complete_reply);
    ("inspect_request", inspect_request);
    ("inspect_reply", inspect_reply);
    ("display_data", display_data);
    ("input_request", input_request)
  ].

End V4toV5.


(** ** Method resolution and [Adapter.__call__] *)

Definition msg_type_map (self : adapter) : gmap string string :=
  match self with
  | Adapter => Adapter.msg_type_map
  | V5toV4 => V5toV4.msg_type_map
  | V4toV5 => V4toV5.msg_type_map
  end.

Definition update_header (self : adapter) (msg : pyval) : result pyval :=
  match self with
  | Adapter => Adapter.update_header msg
  | V5toV4 => V5toV4.update_header msg
  | V4toV5 => V4toV5.update_header msg
  end.

Definition update_metadata (self : adapter) (msg : pyval) : result pyval :=
  Adapter.update_metadata msg.

Definition update_msg_type (self : adapter) (msg : pyval) : result pyval :=
  Adapter.update_msg_type (msg_type_map self) msg.

(** The content transforms [self] has, by name. *)
Definition handlers `{!Env} (self : adapter) : gmap string (pyval → result pyval) :=
  match self with
  | Adapter => ∅
  | V5toV4 => V5toV4.handlers
  | V4toV5 => V4toV5.handlers
  end.

(** Calling an attribute that is a str or a dict. *)
Definition not_callable (msg : pyval) : result pyval := Err TypeError.

(** The other names the class bodies define, with what calling each with
    one argument does; [reenter] is the bound [__call__]. *)
Definition class_attrs (self : adapter) (reenter : pyval → result pyval)
  : gmap string (pyval → result pyval) :=
  list_to_map ([
    ("msg_type_map", not_callable);
    ("update_header", update_header self);
    ("update_metadata", update_metadata self);
    ("update_msg_type", update_msg_type self);
    ("handle_reply_status_error",
      fun msg => call_bound handle_reply_status_error self [msg]);
    ("__call__", reenter)
  ] ++ match self with
       | Adapter => []
       | V5toV4 | V4toV5 => [("version", not_callable)]
       end)%list.

(** [getattr(self, name, None)]: a name that is not a str raises TypeError. *)
Definition getattr `{!Env} (self : adapter) (reenter : pyval → result pyval)
  (name : pyval) : result (option (pyval → result pyval)) :=
  match name with
  | VStr s =>
      Ok (match handlers self !! s with
          | Some h => Some h
          | None =>
              match class_attrs self reenter !! s with
              | Some f => Some f
              | None => object_attr self s
              end
          end)
  | _ => Err TypeError
  end.

(** The body of [Adapter.__call__]; [reenter] is the bound method
    [self.__call__], which [getattr] returns for the name [__call__]. *)
Definition call_body `{!Env} (reenter : pyval → result pyval) (self : adapter)
  (msg : pyval) : result pyval :=
  msg ← update_header self msg;
  msg ← update_metadata self msg;
  msg ← update_msg_type self msg;
  header ← getitem msg "header";
  msg_type ← getitem header "msg_type";
  handler ← getattr self reenter msg_type;
  match handler with
  | None => Ok msg
  | Some handler =>
      (* handle status=error replies separately (no change, at present) *)
      content ← getitem msg "content";
      status ← get_default content "status" VNone;
      is_error ← in_error_statuses status;
      if is_error : bool
      then call_bound handle_reply_status_error self [msg]
      else handler msg
  end.

(** [Adapter.__call__].  [depth] is the number of nested calls of the
    method the interpreter still allows. *)
Fixpoint __call__ `{!Env} (depth : nat) (self : adapter) (msg : pyval)
  : result pyval :=
  call_body (match depth with
             | O => fun _ => Err RecursionError
             | S d => __call__ d self
             end) self msg.

(** ** [adapt] *)

(** one adapter per major version from,to *)
Definition adapters : gmap (Z * Z) adapter :=
  list_to_map [((5, 4), V5toV4); ((4, 5), V4toV5)].

(** The major version [adapt] reads off the header. *)
Definition from_version (header : pyval) : result Z :=
  has_version ← contains "version" header;
  if has_version : bool then
    version ← getitem header "version";
    match version with
    | VStr s =>
        match split_dot s with
        | first :: _ =>
            match py_int first with
            | Some n => Ok n
            | None => Err ValueError
            end
        | [] => Err IndexError
        end
    | _ => Err AttributeError
    end
  else
    (* assume last version before adding the key to the header *)
    Ok 4.

Definition adapt `{!Env} (depth : nat) (msg : pyval) (to_version : Z)
  : result pyval :=
  header ← getitem msg "header";
  from_version ← from_version header;
  match adapters !! (from_version, to_version) with
  | None => Ok msg
  | Some adapter => __call__ depth adapter msg
  end.

(** ** Notions the properties are stated with *)

(** The summed length of some lines. *)
Fixpoint total (lines : list string) : Z :=
  match lines with
  | [] => 0
  | l :: rest => len l + total rest
  end.

(** A segment of a version string that [int()] accepts. *)
Definition numeric (part : string) : bool :=
  match py_int part with
  | Some _ => true
  | None => false
  end.

(** A version string with its non-numeric segments removed. *)
Definition without_non_numeric (s : string) : string :=
  join "." (List.filter numeric (split_dot s)).

(** A segment that, when [int()] accepts it, is the decimal rendering of its
    value: no sign [+], no leading zero, no white space, no underscore. *)
Definition canonical (part : string) : Prop :=
  ∀ n, py_int part = Some n → str_of_int n = part.

(** The characters of the decimal rendering of a natural number. *)
Definition uint_chars (u : Decimal.uint) : list ascii :=
  list_ascii_of_string (NilEmpty.string_of_uint u).

(** The leading dot-separated segment of a version string. *)
Definition leading_segment (s : string) : string := hd "" (split_dot s).

(** A dict display [{k1: v1, ...}]. *)
Definition dict (items : list (string * pyval)) : pyval := VDict (list_to_map items).

(** [msg['header']['msg_type']] and [msg['msg_type']], when present. *)
Definition header_msg_type (msg : pyval) : option pyval :=
  match msg with
  | VDict m =>
      match m !! "header" with
      | Some (VDict h) => h !! "msg_type"
      | _ => None
      end
  | _ => None
  end.

Definition top_msg_type (msg : pyval) : option pyval :=
  match msg with
  | VDict m => m !! "msg_type"
  | _ => None
  end.

(** The name under which [__call__] looks the handler of [msg] up: the
    message type after the rename. *)
Definition dispatch_name (self : adapter) (msg : pyval) : option string :=
  match header_msg_type msg with
  | Some (VStr t) => Some (default t (msg_type_map self !! t))
  | _ => None
  end.

(** Both copies of the message type of [r] are those of [m]. *)
Definition keeps_msg_type (m r : pyval) : Prop :=
  header_msg_type r = header_msg_type m ∧ top_msg_type r = top_msg_type m.

(** Every value [e] returns satisfies [P]. *)
Definition returns_with {A} (P : A → Prop) (e : result A) : Prop :=
  ∀ a, e = Ok a → P a.

(** An environment in which JSON conversion always fails and [object] adds
    no attribute. *)
Definition failing_env : Env := {|
  json_dumps := fun _ => Err TypeError;
  json_loads := fun _ => Err ValueError;
  token_at_cursor := fun _ _ => Ok (VStr "");
  object_attr := fun _ _ => None;
  repr_str := fun _ => "";
|}.

(** The str a reply of version 4 has under [key]: the empty str stands for
    a missing key and for a value that is not true. *)
Definition str_field (content : gmap string pyval) (key : string) : string :=
  match content !! key with
  | Some (VStr s) => s
  | _ => ""
  end.

(** The first non-empty field among [keys], as a list of at most one. *)
Fixpoint first_non_empty (content : gmap string pyval) (keys : list string)
  : list string :=
  match keys with
  | [] => []
  | key :: rest =>
      if String.eqb (str_field content key) "" then first_non_empty content rest
      else [str_field content key]
  end.

(** The text the specification gives [data["text/plain"]] in [inspect_reply]. *)
Definition inspect_text (content : gmap string pyval) : string :=
  match (first_non_empty content ["call_def"; "init_definition"; "definition"]
         ++ first_non_empty content ["call_docstring"; "init_docstring"; "docstring"])%list
  with
  | [] => "<empty docstring>"
  | lines => join (String "010" "") lines
  end.

(** The keys [inspect_reply] reads the text from. *)
Definition inspect_keys : list string :=
  ["call_def"; "init_definition"; "definition";
   "call_docstring"; "init_docstring"; "docstring"].

(** The messages the properties are evaluated at. *)
Definition error_reply : pyval :=
  dict [("header", dict [("msg_type", VStr "execute_reply"); ("version", VStr "5.0")]);
        ("content", dict [("status", VStr "error"); ("ename", VStr "NameError")])].

Definition ipython_kernel_info_reply : pyval :=
  dict [("header", dict [("msg_type", VStr "kernel_info_reply"); ("version", VStr "5.0")]);
        ("content", dict [("implementation", VStr "ipython");
                          ("implementation_version", VStr "3.0");
                          ("language", VStr "python")])].

Definition complete_reply_content : gmap string pyval :=
  list_to_map [("matches", VList [VStr "foobar"; VStr "foobaz"]);
               ("cursor_start", VInt 3);
               ("cursor_end", VInt 6)].

Definition inspect_reply_content : gmap string pyval :=
  list_to_map [("found", VBool true);
               ("name", VStr "f");
               ("definition", VStr "f(x)");
               ("docstring", VStr "does a thing")].

Definition display_data_content : gmap string pyval :=
  list_to_map [("source", VStr "display");
               ("data", dict [("application/json", VStr "{oops");
                              ("text/plain", VStr "oops")])].

(** ** Notions the further properties are stated with *)

(** A str without the character [.]. *)
Definition no_dot (s : string) : Prop :=
  Forall (fun c => c ≠ "."%char) (list_ascii_of_string s).

(** Replies of version 4 the further properties are evaluated at. *)
Definition julia_kernel_info_content : gmap string pyval :=
  list_to_map [("language", VStr "julia");
               ("language_version", VList [VInt 0; VInt 3]);
               ("protocol_version", VList [VInt 4; VInt 1])].

Definition ipython_kernel_info_content : gmap string pyval :=
  list_to_map [("language", VStr "python");
               ("language_version", VList [VInt 2; VInt 7; VInt 3]);
               ("protocol_version", VList [VInt 4; VInt 1]);
               ("ipython_version", VList [VInt 2; VInt 0; VInt 0])].

(** An environment in which the JSON conversions handle ints only: an int
    is dumped as its decimal rendering and such a rendering is loaded as
    the int; every other value raises. *)
Definition int_json_env : Env := {|
  json_dumps := fun v => match v with
                         | VInt n => Ok (VStr (str_of_int n))
                         | _ => Err TypeError
                         end;
  json_loads := fun v => match v with
                         | VStr s =>
                             match py_int s with
                             | Some n => if String.eqb (str_of_int n) s
                                         then Ok (VInt n) else Err ValueError
                             | None => Err ValueError
                             end
                         | _ => Err TypeError
                         end;
  token_at_cursor := fun _ _ => Ok (VStr "");
  object_attr := fun _ _ => None;
  repr_str := fun _ => "";
|}.

(** The names the class bodies define besides the content transforms: the
    keys of [class_attrs]. *)
Definition class_attr_names (self : adapter) : list string :=
  (["msg_type_map"; "update_header"; "update_metadata"; "update_msg_type";
    "handle_reply_status_error"; "__call__"]
   ++ match self with
      | Adapter => []
      | V5toV4 | V4toV5 => ["version"]
      end)%list.

(** [name] resolves to nothing: [getattr(self, name, None)] is [None]. *)
Definition no_attribute `{!Env} (self : adapter) (name : string) : Prop :=
  (handlers self !! name = None) ∧
  (name ∉ class_attr_names self) ∧
  (object_attr self name = None).

(** [r] is [msg] up to its content. *)
Definition same_but_content (msg r : pyval) : Prop :=
  ∃ (m : gmap string pyval) (c : pyval),
    msg = VDict m ∧ r = VDict (<["content" := c]> m).

(** A str without a line boundary of [splitlines]. *)
Definition one_line (s : string) : Prop :=
  Forall (fun c => is_linebreak c = false) (list_ascii_of_string s).

(** [header['version']] after an adapter, from what it was before. *)
Definition version_after (self : adapter) (before : option pyval) : option pyval :=
  match self with
  | Adapter => before
  | V5toV4 => None
  | V4toV5 => Some (VStr V4toV5.version)
  end.

(** [r] is [msg] up to [content], the two copies of the message type and
    [header['version']], which is [version] in [r]. *)
Definition same_but_adapted (version : option pyval → option pyval) (msg r : pyval)
  : Prop :=
  ∃ m d h h' : gmap string pyval,
    msg = VDict m ∧ r = VDict d ∧
    m !! "header" = Some (VDict h) ∧ d !! "header" = Some (VDict h') ∧
    (∀ k, k ≠ "header" → k ≠ "msg_type" → k ≠ "content" → d !! k = m !! k) ∧
    (∀ k, k ≠ "version" → k ≠ "msg_type" → h' !! k = h !! k) ∧
    h' !! "version" = version (h !! "version").

(** * Properties *)

(** ** Results *)

Lemma bind_Ok {A B} (e : result A) (k : A → result B) (b : B) :
  (e ≫= k) = Ok b → ∃ a, e = Ok a ∧ k a = Ok b.
Proof. destruct e as [a|x]; simpl; [eauto | discriminate]. Qed.

(** ** Lines *)

Lemma total_app l1 l2 : total (l1 ++ l2) = total l1 + total l2.
Proof. induction l1 as [|x l1 IH]; simpl; lia. Qed.

Lemma append_nil_l (s : string) : "" ++ s = s.
Proof. reflexivity. Qed.

Lemma append_cons (c : ascii) (s t : string) : String c s ++ t = String c (s ++ t).
Proof. reflexivity. Qed.

Lemma append_nil_r (s : string) : s ++ "" = s.
Proof. induction s as [|c s IH]; [reflexivity|]. rewrite append_cons, IH. reflexivity. Qed.

Lemma len_append (s1 s2 : string) : len (s1 ++ s2) = len s1 + len s2.
Proof.
  unfold len. rewrite <- Nat2Z.inj_add. f_equal.
  induction s1 as [|c s1 IH]; [reflexivity|].
  rewrite append_cons. simpl. congruence.
Qed.

Lemma concat_empty_cons (x : string) (xs : list string) :
  String.concat "" (x :: xs) = x ++ String.concat "" xs.
Proof.
  destruct xs as [|y ys]; [|reflexivity].
  simpl. rewrite append_nil_r. reflexivity.
Qed.

Lemma len_concat (lines : list string) : len (String.concat "" lines) = total lines.
Proof.
  induction lines as [|x xs IH]; [reflexivity|].
  rewrite concat_empty_cons, len_append, IH. reflexivity.
Qed.

(** The lines of [splitlines] partition the text. *)
Lemma splitlines_concat_aux (n : nat) :
  ∀ s, (String.length s ≤ n)%nat → String.concat "" (splitlines s) = s.
Proof.
  induction n as [|n IH]; intros s Hn.
  - destruct s; [reflexivity | simpl in Hn; lia].
  - destruct s as [|c r]; [reflexivity|].
    simpl in Hn. cbn [splitlines].
    assert (Hr : String.concat "" (splitlines r) = r) by (apply IH; lia).
    destruct (is_linebreak c).
    + destruct (Ascii.eqb c "013").
      * destruct r as [|c' r']; [reflexivity|].
        assert (Hr' : String.concat "" (splitlines r') = r')
          by (apply IH; simpl in Hn; lia).
        destruct c' as [[] [] [] [] [] [] [] []];
          rewrite concat_empty_cons; rewrite ?Hr, ?Hr'; reflexivity.
      * rewrite concat_empty_cons, Hr. reflexivity.
    + destruct (splitlines r) as [|l ls]; [simpl in Hr; subst r; reflexivity|].
      rewrite concat_empty_cons in *. rewrite append_cons, Hr. reflexivity.
Qed.

Lemma splitlines_concat (s : string) : String.concat "" (splitlines s) = s.
Proof. apply (splitlines_concat_aux (String.length s)). lia. Qed.

Lemma total_splitlines (s : string) : total (splitlines s) = len s.
Proof. rewrite <- len_concat, splitlines_concat. reflexivity. Qed.

Lemma splitlines_nonempty (s : string) : s ≠ "" → splitlines s ≠ [].
Proof.
  intros Hs Hnil. apply Hs. rewrite <- (splitlines_concat s), Hnil. reflexivity.
Qed.

(** What the loop of [code_to_line] returns on a non-empty list of lines:
    it stops at the first line that is not shorter than what is left of the
    offset, or runs through every line, subtracting the last one too. *)
Lemma code_to_line_loop_spec (lines : list string) :
  ∀ cur pos, lines ≠ [] →
  ∃ before line after, lines = (before ++ line :: after)%list ∧
    ((code_to_line_loop lines cur pos = (Some line, pos - total before) ∧
      pos - total before <= len line ∧
      (0 <= pos → 0 <= pos - total before))
     ∨ (after = [] ∧
        code_to_line_loop lines cur pos = (Some line, pos - total before - len line) ∧
        len line < pos - total before)).
Proof.
  induction lines as [|l rest IH]; intros cur pos Hne; [congruence|].
  cbn [code_to_line_loop].
  destruct (Z.gtb_spec pos (len l)) as [Hgt|Hle].
  - destruct rest as [|l' rest'].
    + exists [], l, []. split; [reflexivity|]. right. simpl.
      repeat split; [f_equal; lia | lia].
    + destruct (IH (Some l) (pos - len l)) as (before & line & after & Heq & Hcase);
        [congruence|].
      exists (l :: before), line, after. split; [simpl; congruence|].
      cbn [total].
      replace (pos - (len l + total before)) with (pos - len l - total before) by lia.
      destruct Hcase as [(Hr & Hb & Hp) | (Ha & Hr & Hb)]; [left | right]; repeat split;
        try assumption; try lia.
  - exists [], l, rest. split; [reflexivity|]. left. simpl.
    repeat split; [f_equal; lia | lia | lia].
Qed.

(** C4 (as amended).  For a non-empty text and an offset that is not
    negative, [code_to_line] returns one of the lines of the text and a
    relative offset that is not negative.  If the offset is within the text,
    the relative offset is the offset minus the length of the lines before
    the returned one, and lies within that line.  If the offset exceeds the
    length of the text, the last line is returned and the relative offset is
    the offset minus the length of the whole text: nothing bounds it by the
    length of that line. *)
Theorem code_to_line_spec (code : string) (pos : Z) :
  code ≠ "" → 0 <= pos →
  ∃ before line after rel,
    splitlines code = (before ++ line :: after)%list ∧
    code_to_line code pos = Ok (line, rel) ∧
    0 <= rel ∧
    (pos <= len code → rel = pos - total before ∧ rel <= len line) ∧
    (len code < pos → after = [] ∧ rel = pos - len code).
Proof.
  intros Hne Hpos.
  destruct (code_to_line_loop_spec (splitlines code) None pos (splitlines_nonempty _ Hne))
    as (before & line & after & Heq & Hcase).
  pose proof (total_splitlines code) as Htot.
  rewrite Heq, total_app in Htot. cbn [total] in Htot.
  assert (0 <= total after) by (clear; induction after; cbn [total]; unfold len in *; lia).
  assert (0 <= len line) by (unfold len; lia).
  destruct Hcase as [(Hr & Hb & Hp) | (Ha & Hr & Hb)].
  - exists before, line, after, (pos - total before).
    unfold code_to_line. rewrite Hr. repeat split; try lia; auto.
  - subst after. cbn [total] in Htot.
    exists before, line, [], (pos - total before - len line).
    unfold code_to_line. rewrite Hr. repeat split; try lia; auto.
Qed.

Lemma code_to_line_spec_witness :
  ∃ before line after rel,
    splitlines "abc" = (before ++ line :: after)%list ∧
    code_to_line "abc" 2 = Ok (line, rel) ∧
    0 <= rel ∧
    (2 <= len "abc" → rel = 2 - total before ∧ rel <= len line) ∧
    (len "abc" < 2 → after = [] ∧ rel = 2 - len "abc").
Proof. apply (code_to_line_spec "abc" 2); [discriminate | lia]. Defined.

(** C4, as stated, fails: an offset beyond the text comes back reduced by
    the length of the text, not clamped into the last line. *)
Lemma code_to_line_not_clamped :
  ¬ (∃ line rel, code_to_line "abc" 10 = Ok (line, rel) ∧ 0 <= rel <= len line).
Proof.
  intros (line & rel & Hrun & Hrange).
  vm_compute in Hrun. injection Hrun as <- <-.
  vm_compute in Hrange. destruct Hrange as [_ H]. apply H. reflexivity.
Qed.

(** On the empty text the loop never binds [line]. *)
Lemma code_to_line_empty (pos : Z) : code_to_line "" pos = Err UnboundLocalError.
Proof. reflexivity. Qed.

(** ** The version utility *)

Lemma omap_filter_canonical (parts : list string) :
  Forall canonical parts →
  str_of_int <$> omap py_int parts = List.filter numeric parts.
Proof.
  induction 1 as [|p parts Hp _ IH]; [reflexivity|].
  cbn [omap list_omap List.filter]. unfold numeric at 1.
  destruct (py_int p) as [n|] eqn:Hn; [|exact IH].
  cbn [fmap list_fmap]. rewrite (Hp n Hn). f_equal. exact IH.
Qed.

(** C5 (as amended).  For a version string whose numeric segments are each
    the decimal rendering of their value, converting to the list of ints and
    joining back with dots yields the string with its non-numeric segments
    removed.  Both conversions return on every str, respectively on every
    list of ints. *)
Theorem version_roundtrip (s : string) :
  Forall canonical (split_dot s) →
  version_list_to_str (_version_str_to_list s) = without_non_numeric s ∧
  _version_str_to_list_val (VStr s) = Ok (VList (VInt <$> _version_str_to_list s)) ∧
  ∀ (E : Env) (v : list Z),
    version_list_to_str_val (VList (VInt <$> v)) = Ok (VStr (version_list_to_str v)).
Proof.
  intros Hcanon. split; [|split].
  - unfold version_list_to_str, _version_str_to_list, without_non_numeric.
    rewrite omap_filter_canonical by assumption. reflexivity.
  - reflexivity.
  - intros E v. unfold version_list_to_str_val, version_list_to_str. simpl.
    rewrite <- list_fmap_compose. reflexivity.
Qed.

Lemma version_roundtrip_witness :
  version_list_to_str (_version_str_to_list "5.0.dev") = "5.0" ∧
  _version_str_to_list "5.0.dev" = [5; 0].
Proof.
  split; [|reflexivity].
  refine (eq_trans (proj1 (version_roundtrip "5.0.dev" _)) _); [|reflexivity].
  repeat constructor; intros n Hn; vm_compute in Hn; try discriminate;
    injection Hn as <-; reflexivity.
Defined.

(** C5, as stated, fails: [int()] accepts a segment with a leading zero, and
    [str()] does not give the zero back. *)
Lemma version_roundtrip_leading_zero :
  version_list_to_str (_version_str_to_list "05.1") ≠ without_non_numeric "05.1".
Proof. vm_compute. discriminate. Qed.

(** *** Every int has a canonical rendering *)

Lemma digits_acc_pos (u : Decimal.uint) :
  ∀ acc : positive,
    digits_acc (Z.pos acc) true (uint_chars u) = Some (Z.pos (Pos.of_uint_acc u acc)).
Proof.
  induction u as [|u IH|u IH|u IH|u IH|u IH|u IH|u IH|u IH|u IH|u IH]; intros acc;
    [reflexivity|..];
    unfold uint_chars in *; cbn [NilEmpty.string_of_uint list_ascii_of_string digits_acc Pos.of_uint_acc];
    change (digit_val _) with (Some 0) || change (digit_val _) with (Some 1)
    || change (digit_val _) with (Some 2) || change (digit_val _) with (Some 3)
    || change (digit_val _) with (Some 4) || change (digit_val _) with (Some 5)
    || change (digit_val _) with (Some 6) || change (digit_val _) with (Some 7)
    || change (digit_val _) with (Some 8) || change (digit_val _) with (Some 9);
    cbv iota; rewrite <- IH; f_equal; lia.
Qed.

Lemma digits_acc_zero (u : Decimal.uint) :
  ∀ b : bool, u ≠ Decimal.Nil ∨ b = true →
    digits_acc 0 b (uint_chars u) = Some (Z.of_N (Pos.of_uint u)).
Proof.
  induction u as [|u IH|u IH|u IH|u IH|u IH|u IH|u IH|u IH|u IH|u IH]; intros b Hb.
  - destruct Hb as [Hb | ->]; [congruence | reflexivity].
  - unfold uint_chars in *. cbn [NilEmpty.string_of_uint list_ascii_of_string digits_acc Pos.of_uint].
    change (digit_val _) with (Some 0). cbv iota. apply (IH true). right. reflexivity.
  - apply (digits_acc_pos u 1).
  - apply (digits_acc_pos u 2).
  - apply (digits_acc_pos u 3).
  - apply (digits_acc_pos u 4).
  - apply (digits_acc_pos u 5).
  - apply (digits_acc_pos u 6).
  - apply (digits_acc_pos u 7).
  - apply (digits_acc_pos u 8).
  - apply (digits_acc_pos u 9).
Qed.

Lemma uint_chars_not_space (u : Decimal.uint) :
  Forall (fun c => is_space c = false) (uint_chars u).
Proof. induction u; constructor; (reflexivity || assumption). Qed.

Lemma lstrip_id (cs : list ascii) :
  Forall (fun c => is_space c = false) cs → lstrip cs = cs.
Proof. destruct 1 as [|c cs Hc _]; [reflexivity|]. simpl. rewrite Hc. reflexivity. Qed.

Lemma strip_id (cs : list ascii) :
  Forall (fun c => is_space c = false) cs → strip cs = cs.
Proof.
  intros H. unfold strip. rewrite (lstrip_id cs H).
  rewrite lstrip_id by (apply List.Forall_rev; exact H).
  apply rev_involutive.
Qed.

Lemma signed_digits_uint (u : Decimal.uint) :
  u ≠ Decimal.Nil →
  signed_digits (uint_chars u) = Some (Z.of_N (Pos.of_uint u)).
Proof.
  intros Hu. rewrite <- (digits_acc_zero u false) by (left; exact Hu).
  destruct u; [congruence | reflexivity..].
Qed.

Lemma to_uint_not_nil (p : positive) : Pos.to_uint p ≠ Decimal.Nil.
Proof.
  intros H. pose proof (DecimalPos.Unsigned.of_to p) as Hp.
  rewrite H in Hp. discriminate.
Qed.

Lemma string_of_uint_pos (p : positive) :
  NilZero.string_of_uint (Pos.to_uint p) = NilEmpty.string_of_uint (Pos.to_uint p).
Proof.
  pose proof (to_uint_not_nil p). destruct (Pos.to_uint p); [congruence | reflexivity..].
Qed.

(** [int(str(n)) == n]: the decimal rendering of an int is accepted by
    [int()], with the same value. *)
Lemma py_int_str_of_int (n : Z) : py_int (str_of_int n) = Some n.
Proof.
  destruct n as [|p|p]; [reflexivity|..]; unfold py_int, str_of_int;
    cbn [Z.to_int NilZero.string_of_int]; rewrite string_of_uint_pos.
  - fold (uint_chars (Pos.to_uint p)).
    rewrite strip_id by apply uint_chars_not_space.
    rewrite signed_digits_uint by apply to_uint_not_nil.
    rewrite DecimalPos.Unsigned.of_to. reflexivity.
  - cbn [list_ascii_of_string]. fold (uint_chars (Pos.to_uint p)).
    rewrite strip_id by (constructor; [reflexivity | apply uint_chars_not_space]).
    cbn [signed_digits].
    rewrite (digits_acc_zero _ false) by (left; apply to_uint_not_nil).
    rewrite DecimalPos.Unsigned.of_to. reflexivity.
Qed.

(** The rendering of every int is canonical. *)
Lemma canonical_str_of_int (n : Z) : canonical (str_of_int n).
Proof. intros m Hm. rewrite py_int_str_of_int in Hm. congruence. Qed.

(** A segment [int()] rejects is canonical: the condition bears on the
    numeric segments only. *)
Lemma canonical_non_numeric (part : string) : numeric part = false → canonical part.
Proof.
  unfold numeric, canonical. intros H n Hn. rewrite Hn in H. discriminate.
Qed.

(** The canonical numeric segments are exactly the renderings of the ints. *)
Lemma canonical_numeric_iff (part : string) :
  numeric part = true ∧ canonical part ↔ ∃ n, part = str_of_int n.
Proof.
  unfold numeric. split.
  - intros [Hnum Hcanon]. destruct (py_int part) as [n|] eqn:Hn; [|discriminate].
    exists n. symmetry. exact (Hcanon n Hn).
  - intros [n ->]. rewrite py_int_str_of_int.
    split; [reflexivity | apply canonical_str_of_int].
Qed.

(** ** Operations on dicts *)

Lemma contains_Some (d : gmap string pyval) (k : string) (v : pyval) :
  d !! k = Some v → contains k (VDict d) = Ok true.
Proof. intros H. simpl. rewrite bool_decide_true by eauto. reflexivity. Qed.

Lemma contains_None (d : gmap string pyval) (k : string) :
  d !! k = None → contains k (VDict d) = Ok false.
Proof.
  intros H. simpl. rewrite bool_decide_false; [reflexivity|].
  rewrite H. intros [? ?]. discriminate.
Qed.

Lemma split_dot_not_nil (s : string) : split_dot s ≠ [].
Proof.
  induction s as [|c r IH]; [discriminate|]. simpl.
  destruct (Ascii.eqb c "."); [discriminate|].
  destruct (split_dot r); discriminate.
Qed.

(** ** [adapt] *)

(** The registry holds the pairs (5,4) and (4,5) and nothing else. *)
Lemma adapters_lookup_None (a b : Z) :
  (a, b) ≠ (5, 4) → (a, b) ≠ (4, 5) → adapters !! (a, b) = None.
Proof.
  intros H1 H2. unfold adapters. cbn [list_to_map foldr uncurry fst snd].
  rewrite !lookup_insert_ne by congruence. apply lookup_empty.
Qed.

Lemma adapters_lookup_Some (a b : Z) (self : adapter) :
  adapters !! (a, b) = Some self →
  (a, b) = (5, 4) ∧ self = V5toV4 ∨ (a, b) = (4, 5) ∧ self = V4toV5.
Proof.
  unfold adapters. cbn [list_to_map foldr uncurry fst snd].
  intros H. apply lookup_insert_Some in H as [[-> <-] | [_ H]]; [auto|].
  apply lookup_insert_Some in H as [[-> <-] | [_ H]]; [auto|].
  rewrite lookup_empty in H. discriminate.
Qed.

(** C6.  When the pair of the source major version read off the header and
    the target major version is not in the registry, [adapt] returns the
    message it was given; a pair of equal versions is such a pair. *)
Theorem adapt_unregistered (E : Env) (depth : nat) (msg header : pyval)
  (source to_version : Z) :
  getitem msg "header" = Ok header →
  from_version header = Ok source →
  (source, to_version) ≠ (5, 4) →
  (source, to_version) ≠ (4, 5) →
  adapt depth msg to_version = Ok msg.
Proof.
  intros Hh Hv H54 H45. unfold adapt. rewrite Hh. simpl. rewrite Hv. simpl.
  rewrite adapters_lookup_None by assumption. reflexivity.
Qed.

Lemma adapt_unregistered_witness :
  let msg := dict [("header", dict [("msg_type", VStr "execute_request");
                                    ("version", VStr "5.0")]);
                   ("content", dict [("code", VStr "1+1")])] in
  @adapt failing_env 0 msg 5 = Ok msg.
Proof.
  intros msg.
  apply (adapt_unregistered failing_env 0 msg
           (dict [("msg_type", VStr "execute_request"); ("version", VStr "5.0")])
           5 5); [reflexivity | reflexivity | discriminate | discriminate].
Defined.

(** C10.  When the header has a [version] whose leading dot-separated
    segment [int()] rejects, [adapt] raises ValueError whatever the target
    version; only a header without the key gets the major version 4. *)
Theorem adapt_version_policy (E : Env) (depth : nat) (msg : pyval)
  (header : gmap string pyval) (to_version : Z) :
  getitem msg "header" = Ok (VDict header) →
  (∀ s, header !! "version" = Some (VStr s) →
        py_int (leading_segment s) = None →
        adapt depth msg to_version = Err ValueError) ∧
  (header !! "version" = None →
   from_version (VDict header) = Ok 4 ∧
   adapt depth msg to_version =
     match adapters !! (4, to_version) with
     | None => Ok msg
     | Some self => __call__ depth self msg
     end).
Proof.
  intros Hh. split.
  - intros s Hs Hint. unfold adapt. rewrite Hh. simpl.
    unfold from_version. rewrite (contains_Some _ _ _ Hs). simpl. rewrite Hs. simpl.
    unfold leading_segment in Hint.
    pose proof (split_dot_not_nil s) as Hne.
    destruct (split_dot s) as [|first rest]; [congruence|].
    simpl in Hint. rewrite Hint. reflexivity.
  - intros Hs.
    assert (Hv : from_version (VDict header) = Ok 4).
    { unfold from_version. rewrite (contains_None _ _ Hs). reflexivity. }
    split; [exact Hv|]. unfold adapt. rewrite Hh. simpl. rewrite Hv. reflexivity.
Qed.

(** A [version] that is not a str has no [split]. *)
Lemma adapt_version_not_str (E : Env) (depth : nat) (msg v : pyval)
  (header : gmap string pyval) (to_version : Z) :
  getitem msg "header" = Ok (VDict header) →
  header !! "version" = Some v →
  (∀ s, v ≠ VStr s) →
  adapt depth msg to_version = Err AttributeError.
Proof.
  intros Hh Hv Hns. unfold adapt. rewrite Hh. cbn [mbind result_bind].
  unfold from_version. rewrite (contains_Some _ _ _ Hv).
  cbn [mbind result_bind getitem]. rewrite Hv. cbn [mbind result_bind].
  destruct v; try reflexivity. destruct (Hns s eq_refl).
Qed.

Lemma adapt_version_policy_witness :
  let header : gmap string pyval :=
    list_to_map [("msg_type", VStr "execute_request"); ("version", VStr "dev.5")] in
  let msg := dict [("header", VDict header); ("content", dict [])] in
  @adapt failing_env 0 msg 4 = Err ValueError ∧ _version_str_to_list "dev.5" = [5].
Proof.
  intros header msg. split; [|reflexivity].
  apply (proj1 (adapt_version_policy failing_env 0 msg header 4 eq_refl) "dev.5");
    reflexivity.
Defined.

(** ** Replies with an error status *)

(** Once the three update steps are done and the message type names a
    content transform, a status [error] or [aborted] makes [__call__] call
    [handle_reply_status_error] through the instance, with two arguments. *)
Lemma status_error_raises (E : Env) (depth : nat) (self : adapter)
  (msg m1 m2 header content status : pyval) (t : string) (h : pyval → result pyval) :
  update_header self msg = Ok m1 →
  update_msg_type self m1 = Ok m2 →
  getitem m2 "header" = Ok header →
  getitem header "msg_type" = Ok (VStr t) →
  handlers self !! t = Some h →
  getitem m2 "content" = Ok content →
  get_default content "status" VNone = Ok status →
  in_error_statuses status = Ok true →
  __call__ depth self msg = Err TypeError.
Proof.
  intros H1 H2 Hh Ht Hhandler Hc Hs He.
  destruct depth; cbn [__call__]; unfold call_body; rewrite H1; cbn [mbind result_bind];
    unfold update_metadata, Adapter.update_metadata; cbn [mbind result_bind];
    rewrite H2; cbn [mbind result_bind]; rewrite Hh; cbn [mbind result_bind];
    rewrite Ht; cbn [mbind result_bind getattr]; rewrite Hhandler;
    cbn [mbind result_bind]; rewrite Hc; cbn [mbind result_bind];
    rewrite Hs; cbn [mbind result_bind]; rewrite He; reflexivity.
Qed.

(** C1, on the code.  An [execute_reply] of version 5 with status [error],
    adapted to version 4: the call does not return the message, it raises
    TypeError, because [handle_reply_status_error] is defined without
    [self]. *)
Theorem status_error_reply_raises (E : Env) (depth : nat) :
  __call__ depth V5toV4 error_reply = Err TypeError ∧
  adapt depth error_reply 4 = Err TypeError ∧
  handle_reply_status_error [error_reply] = Ok error_reply.
Proof.
  assert (H : __call__ depth V5toV4 error_reply = Err TypeError).
  { eapply (status_error_raises E depth V5toV4 error_reply _ _ _ _ _ "execute_reply");
      reflexivity. }
  split; [exact H|]. split; [|reflexivity].
  unfold adapt. exact H.
Qed.

(** ** [V5toV4.kernel_info_reply] *)

(** Converting one key keeps the content a dict and leaves the other keys. *)
Lemma convert_if_present_dict (conv : pyval → result pyval) (key : string)
  (d : gmap string pyval) (r : pyval) :
  convert_if_present conv key (VDict d) = Ok r →
  ∃ d', r = VDict d' ∧ ∀ k, k ≠ key → d' !! k = d !! k.
Proof.
  unfold convert_if_present. cbn [contains mbind result_bind].
  destruct (bool_decide (is_Some (d !! key))).
  - cbn [getitem]. destruct (d !! key) as [v|]; [|discriminate].
    cbn [mbind result_bind]. destruct (conv v) as [v'|e]; [|discriminate].
    cbn [mbind result_bind setitem]. intros [= <-].
    eexists. split; [reflexivity|]. intros k Hk. apply lookup_insert_ne. congruence.
  - intros [= <-]. eauto.
Qed.

(** The misspelled [pop]: with [implementation] equal to [ipython], an
    [implementation_version] and no key [implmentation_version], the
    transform never returns. *)
Lemma kernel_info_reply_ipython_raises (m c : gmap string pyval) (v : pyval) :
  m !! "content" = Some (VDict c) →
  c !! "implementation" = Some (VStr "ipython") →
  c !! "implementation_version" = Some v →
  c !! "implmentation_version" = None →
  ∃ e, V5toV4.kernel_info_reply (VDict m) = Err e.
Proof.
  intros Hc Himpl Hver Htypo.
  unfold V5toV4.kernel_info_reply. cbn [getitem]. rewrite Hc.
  cbn [mbind result_bind pop_default for_each].
  destruct (convert_if_present _ "language_version" _) as [c1|e] eqn:H1; [|eauto].
  apply convert_if_present_dict in H1 as (d1 & -> & Hd1).
  cbn [mbind result_bind].
  destruct (convert_if_present _ "protocol_version" _) as [c2|e] eqn:H2; [|eauto].
  apply convert_if_present_dict in H2 as (d2 & -> & Hd2).
  cbn [mbind result_bind pop_default].
  assert (Hl : ∀ k, k ≠ "banner" → k ≠ "language_version" → k ≠ "protocol_version" →
               d2 !! k = c !! k).
  { intros k ? ? ?. rewrite Hd2, Hd1 by assumption. apply lookup_delete_ne. congruence. }
  rewrite (Hl "implementation"), Himpl by discriminate.
  cbn [default is_str String.eqb Ascii.eqb Bool.eqb].
  erewrite contains_Some
    by (rewrite lookup_delete_ne by discriminate;
        rewrite (Hl "implementation_version") by discriminate; exact Hver).
  cbn [mbind result_bind pop].
  rewrite lookup_delete_ne by discriminate.
  rewrite (Hl "implmentation_version"), Htypo by discriminate.
  cbn [mbind result_bind]. eauto.
Qed.

(** C3, on the code.  A [kernel_info_reply] of version 5 from IPython,
    adapted to version 4: the transform pops the key [implmentation_version],
    which the content does not have, and raises KeyError. *)
Theorem kernel_info_reply_ipython_KeyError (E : Env) (depth : nat) :
  V5toV4.kernel_info_reply ipython_kernel_info_reply = Err KeyError ∧
  adapt depth ipython_kernel_info_reply 4 = Err KeyError.
Proof. split; [reflexivity|]. destruct depth; reflexivity. Qed.

(** ** [V5toV4.complete_reply] *)

Lemma complete_reply_spec (m c : gmap string pyval) (a b : Z) (s : string)
  (rest : list pyval) :
  m !! "content" = Some (VDict c) →
  c !! "cursor_start" = Some (VInt a) →
  c !! "cursor_end" = Some (VInt b) →
  c !! "matches" = Some (VList (VStr s :: rest)) →
  V5toV4.complete_reply (VDict m) =
    Ok (VDict (<["content" :=
                 VDict (delete "metadata"
                         (<["matched_text" := VStr (str_slice_to s (b - a))]>
                           (delete "cursor_end" (delete "cursor_start" c))))]> m)).
Proof.
  intros Hc Ha Hb Hm.
  unfold V5toV4.complete_reply. cbn [getitem]. rewrite Hc.
  cbn [mbind result_bind pop]. rewrite Ha. cbn [mbind result_bind pop].
  rewrite lookup_delete_ne, Hb by discriminate.
  cbn [mbind result_bind py_sub as_int getitem].
  rewrite !lookup_delete_ne, Hm by discriminate.
  reflexivity.
Qed.

(** C2 (as amended).  On the content
    [{matches: ["foobar", "foobaz"], cursor_start: 3, cursor_end: 6}] the
    transform gives [matched_text == "foo"], the first 6 - 3 characters of
    the first match, and a content without the keys [cursor_start],
    [cursor_end] and [metadata]. *)
Theorem complete_reply_example (m : gmap string pyval) :
  m !! "content" = Some (VDict complete_reply_content) →
  ∃ c' : gmap string pyval,
    V5toV4.complete_reply (VDict m) = Ok (VDict (<["content" := VDict c']> m)) ∧
    c' !! "matched_text" = Some (VStr "foo") ∧
    c' !! "matches" = Some (VList [VStr "foobar"; VStr "foobaz"]) ∧
    c' !! "cursor_start" = None ∧
    c' !! "cursor_end" = None ∧
    c' !! "metadata" = None.
Proof.
  intros Hc. eexists. split.
  - apply (complete_reply_spec m complete_reply_content 3 6 "foobar" [VStr "foobaz"]);
      [exact Hc | reflexivity..].
  - repeat split; reflexivity.
Qed.

Lemma complete_reply_example_witness :
  ∃ c' : gmap string pyval,
    V5toV4.complete_reply (dict [("content", VDict complete_reply_content)]) =
      Ok (VDict (<["content" := VDict c']> (list_to_map [("content", VDict complete_reply_content)]))) ∧
    c' !! "matched_text" = Some (VStr "foo") ∧
    c' !! "matches" = Some (VList [VStr "foobar"; VStr "foobaz"]) ∧
    c' !! "cursor_start" = None ∧
    c' !! "cursor_end" = None ∧
    c' !! "metadata" = None.
Proof.
  apply (complete_reply_example (list_to_map [("content", VDict complete_reply_content)])).
  reflexivity.
Defined.

(** C2, as stated, fails: [matched_text] is not ["bar"]. *)
Lemma complete_reply_not_bar :
  (r ← V5toV4.complete_reply (dict [("content", VDict complete_reply_content)]);
   content ← getitem r "content";
   getitem content "matched_text") ≠ Ok (VStr "bar").
Proof. vm_compute. discriminate. Qed.

(** ** [V4toV5.inspect_reply] *)

(** A value that is true is a str exactly when its field is not empty. *)
Lemma str_field_truthy (c : gmap string pyval) (key : string) :
  (∀ v, c !! key = Some v → truthy v = true → ∃ s, v = VStr s) →
  truthy (default (VBool false) (c !! key)) = negb (String.eqb (str_field c key) "") ∧
  (truthy (default (VBool false) (c !! key)) = true →
   c !! key = Some (VStr (str_field c key))).
Proof.
  intros Hty. unfold str_field.
  destruct (c !! key) as [v|] eqn:Hv; [|split; [reflexivity | discriminate]].
  change (default (VBool false) (Some v)) with v. destruct (truthy v) eqn:Ht.
  - destruct (Hty v eq_refl Ht) as [s ->]. split; [symmetry; exact Ht | reflexivity].
  - split; [|discriminate]. destruct v; try reflexivity. symmetry. exact Ht.
Qed.

Lemma first_true_spec (c : gmap string pyval) (keys : list string) (lines : list pyval) :
  (∀ key v, key ∈ keys → c !! key = Some v → truthy v = true → ∃ s, v = VStr s) →
  V4toV5.first_true keys (VDict c) lines =
    Ok (lines ++ (VStr <$> first_non_empty c keys))%list.
Proof.
  induction keys as [|key rest IH]; intros Hty.
  - cbn. rewrite app_nil_r. reflexivity.
  - cbn [V4toV5.first_true first_non_empty get_default mbind result_bind].
    destruct (str_field_truthy c key) as [Ht Hv].
    { intros v. apply Hty. left. }
    rewrite Ht.
    destruct (String.eqb (str_field c key) "") eqn:He; cbn [negb].
    + apply IH. intros k v Hk. apply Hty. right. exact Hk.
    + cbn [getitem]. rewrite Hv by (rewrite Ht, ?He; reflexivity). reflexivity.
Qed.

Lemma strs_of_strs (l : list string) : strs_of (VStr <$> l) = Ok l.
Proof. induction l as [|s l IH]; [reflexivity|]. cbn. rewrite IH. reflexivity. Qed.

(** C8.  On an [object_info_reply] content of version 4 in which [found]
    is true, and in which a definition or docstring field that is true is a
    str, the transform returns the content
    [{status: "ok", found, name, data: {"text/plain": text}, metadata: {}}],
    where [text] joins with a newline the first non-empty of [call_def],
    [init_definition], [definition] and the first non-empty of
    [call_docstring], [init_docstring], [docstring], and is
    ["<empty docstring>"] when there is neither. *)
Theorem inspect_reply_found (m c : gmap string pyval) (found name : pyval) :
  m !! "content" = Some (VDict c) →
  c !! "found" = Some found →
  truthy found = true →
  c !! "name" = Some name →
  (∀ key v, key ∈ inspect_keys → c !! key = Some v → truthy v = true → ∃ s, v = VStr s) →
  V4toV5.inspect_reply (VDict m) =
    Ok (VDict (<["content" :=
                 dict [("status", VStr "ok");
                       ("found", found);
                       ("name", name);
                       ("data", dict [("text/plain", VStr (inspect_text c))]);
                       ("metadata", dict [])]]> m)).
Proof.
  intros Hc Hfound Htrue Hname Hty.
  unfold V4toV5.inspect_reply. cbn [getitem]. rewrite Hc.
  cbn [mbind result_bind getitem]. rewrite Hfound. cbn [mbind result_bind].
  rewrite Hname. cbn [mbind result_bind]. rewrite Htrue.
  rewrite first_true_spec
    by (intros key v Hk; apply Hty; revert Hk; unfold inspect_keys;
        rewrite !elem_of_cons; tauto).
  cbn [mbind result_bind].
  rewrite first_true_spec
    by (intros key v Hk; apply Hty; revert Hk; unfold inspect_keys;
        rewrite !elem_of_cons; tauto).
  cbn [mbind result_bind app]. rewrite <- fmap_app.
  unfold inspect_text.
  destruct (first_non_empty c _ ++ first_non_empty c _)%list as [|l ls] eqn:Hl.
  - reflexivity.
  - rewrite bool_decide_false by discriminate.
    unfold py_join. rewrite strs_of_strs. cbn [mbind result_bind].
    reflexivity.
Qed.

Lemma inspect_reply_found_witness :
  V4toV5.inspect_reply (dict [("content", VDict inspect_reply_content)]) =
    Ok (dict [("content",
               dict [("status", VStr "ok");
                     ("found", VBool true);
                     ("name", VStr "f");
                     ("data", dict [("text/plain",
                                     VStr ("f(x)" ++ String "010" "does a thing"))]);
                     ("metadata", dict [])])]) ∧
  inspect_text (list_to_map [("found", VBool true); ("name", VStr "f")]) =
    "<empty docstring>".
Proof.
  split; [|reflexivity].
  refine (eq_trans (inspect_reply_found
                      (list_to_map [("content", VDict inspect_reply_content)])
                      inspect_reply_content (VBool true) (VStr "f") _ _ _ _ _) _);
    try reflexivity.
  intros key v Hk Hv Ht. unfold inspect_keys in Hk.
  repeat (apply elem_of_cons in Hk as [-> | Hk];
          [vm_compute in Hv; first [discriminate | injection Hv as <-; eauto] |]).
  apply elem_of_nil in Hk. destruct Hk.
Defined.

(** ** [display_data] *)

(** C9.  When the content has a dict [data] with an [application/json]
    entry and the JSON conversion of that entry raises, [display_data]
    returns the message: the exception is caught, [data] is as it was, and
    the only change to the message is the step before the conversion, which
    defaults the [source] key (5 to 4) or drops it (4 to 5). *)
Theorem display_data_json_failure (E : Env) (m c d : gmap string pyval) (v : pyval) :
  m !! "content" = Some (VDict c) →
  c !! "data" = Some (VDict d) →
  d !! "application/json" = Some v →
  (∀ e, json_dumps v = Err e →
     V5toV4.display_data (VDict m) =
       Ok (VDict (<["content" :=
                    VDict (match c !! "source" with
                           | Some _ => c
                           | None => <["source" := VStr "display"]> c
                           end)]> m))) ∧
  (∀ e, json_loads v = Err e →
     V4toV5.display_data (VDict m) =
       Ok (VDict (<["content" := VDict (delete "source" c)]> m))).
Proof.
  intros Hc Hd Hv. split; intros e He.
  - unfold V5toV4.display_data. cbn [getitem]. rewrite Hc.
    cbn [mbind result_bind setdefault].
    assert (Hdata : ∀ c' : gmap string pyval, c' !! "data" = Some (VDict d) →
      (data ← getitem (VDict c') "data";
       has_json ← contains "application/json" data;
       let data := if has_json : bool
                   then try_pass (V5toV4.display_data_json json_dumps data) data
                   else data in
       content ← setitem (VDict c') "data" data;
       setitem (VDict m) "content" content) = Ok (VDict (<["content" := VDict c']> m))).
    { intros c' Hc'. cbn [getitem]. rewrite Hc'. cbn [mbind result_bind].
      rewrite (contains_Some _ _ _ Hv). cbn [mbind result_bind].
      unfold V5toV4.display_data_json. cbn [getitem]. rewrite Hv.
      cbn [mbind result_bind]. rewrite He. cbn [mbind result_bind try_pass setitem].
      rewrite (insert_id c' _ _ Hc'). reflexivity. }
    destruct (c !! "source") as [src|] eqn:Hsrc; cbn [mbind result_bind].
    + apply Hdata. exact Hd.
    + apply Hdata. rewrite lookup_insert_ne by discriminate. exact Hd.
  - unfold V4toV5.display_data. cbn [getitem]. rewrite Hc.
    cbn [mbind result_bind pop_default getitem].
    rewrite lookup_delete_ne, Hd by discriminate. cbn [mbind result_bind].
    rewrite (contains_Some _ _ _ Hv). cbn [mbind result_bind].
    unfold V5toV4.display_data_json. cbn [getitem]. rewrite Hv.
    cbn [mbind result_bind]. rewrite He. cbn [mbind result_bind try_pass setitem].
    rewrite (insert_id (delete "source" c) "data" (VDict d))
      by (rewrite lookup_delete_ne by discriminate; exact Hd).
    reflexivity.
Qed.

Lemma display_data_json_failure_witness :
  let msg := dict [("content", VDict display_data_content)] in
  @V5toV4.display_data failing_env msg = Ok msg ∧
  @V4toV5.display_data failing_env msg =
    Ok (dict [("content", VDict (delete "source" display_data_content))]).
Proof.
  intros msg.
  pose proof (display_data_json_failure failing_env
                (list_to_map [("content", VDict display_data_content)])
                display_data_content
                (list_to_map [("application/json", VStr "{oops"); ("text/plain", VStr "oops")])
                (VStr "{oops") eq_refl eq_refl eq_refl) as [H54 H45].
  split.
  - exact (H54 TypeError eq_refl).
  - exact (H45 ValueError eq_refl).
Defined.

(** ** The two copies of the message type *)

Lemma returns_Ok {A} (P : A → Prop) (a : A) : P a → returns_with P (Ok a).
Proof. intros H b [= <-]. exact H. Qed.

Lemma returns_Err {A} (P : A → Prop) (e : exc) : returns_with P (Err e).
Proof. intros b Hb. discriminate. Qed.

Lemma returns_bind {A B} (P : B → Prop) (e : result A) (k : A → result B) :
  (∀ a, returns_with P (k a)) → returns_with P (e ≫= k).
Proof. intros H b Hb. apply bind_Ok in Hb as (a & _ & Hb). exact (H a b Hb). Qed.

(** A transform that ends with a write to [msg['content']] changes neither
    copy. *)
Lemma keeps_content (m : gmap string pyval) (c : pyval) :
  keeps_msg_type (VDict m) (VDict (<["content" := c]> m)).
Proof.
  unfold keeps_msg_type, header_msg_type, top_msg_type.
  rewrite !lookup_insert_ne by discriminate. split; reflexivity.
Qed.

Lemma keeps_refl (m : pyval) : keeps_msg_type m m.
Proof. split; reflexivity. Qed.

Lemma keeps_trans (m1 m2 m3 : pyval) :
  keeps_msg_type m1 m2 → keeps_msg_type m2 m3 → keeps_msg_type m1 m3.
Proof. intros [H1 H2] [H3 H4]. split; congruence. Qed.

Ltac returns_step :=
  lazymatch goal with
  | |- returns_with _ (Ok (VDict (<["content" := _]> _))) =>
      apply returns_Ok, keeps_content
  | |- returns_with _ (Err _) => apply returns_Err
  | |- returns_with _ (_ ≫= _) => apply returns_bind; intros ?
  | |- returns_with _ (setitem _ _ _) => cbn [setitem]
  | |- returns_with _ (if ?b then _ else _) => destruct b
  | |- returns_with _ (match ?x with _ => _ end) => destruct x
  end.

Ltac handler_keeps :=
  let msg := fresh "msg" in
  intros msg; destruct msg;
  unfold V5toV4.kernel_info_reply, V5toV4.execute_request, V5toV4.execute_reply,
    V5toV4.complete_request, V5toV4.complete_reply, V5toV4.object_info_request,
    V5toV4.object_info_reply, V5toV4.display_data, V5toV4.input_request,
    V4toV5.kernel_info_reply, V4toV5.execute_request, V4toV5.execute_reply,
    V4toV5.complete_request, V4toV5.complete_reply, V4toV5.inspect_request,
    V4toV5.inspect_reply, V4toV5.display_data, V4toV5.input_request;
  repeat returns_step.

Lemma V5toV4_handlers_keep (E : Env) (name : string) (h : pyval → result pyval) :
  V5toV4.handlers !! name = Some h →
  ∀ msg, returns_with (keeps_msg_type msg) (h msg).
Proof.
  intros H. apply elem_of_list_to_map_2 in H.
  repeat (apply elem_of_cons in H as [[= _ ->] | H];
          [handler_keeps |]).
  apply elem_of_nil in H. destruct H.
Qed.

Lemma V4toV5_handlers_keep (E : Env) (name : string) (h : pyval → result pyval) :
  V4toV5.handlers !! name = Some h →
  ∀ msg, returns_with (keeps_msg_type msg) (h msg).
Proof.
  intros H. apply elem_of_list_to_map_2 in H.
  repeat (apply elem_of_cons in H as [[= _ ->] | H];
          [handler_keeps |]).
  apply elem_of_nil in H. destruct H.
Qed.

Lemma handlers_keep (E : Env) (self : adapter) (name : string)
  (h : pyval → result pyval) :
  handlers self !! name = Some h →
  ∀ msg, returns_with (keeps_msg_type msg) (h msg).
Proof.
  destruct self; cbn [handlers].
  - rewrite lookup_empty. discriminate.
  - apply V5toV4_handlers_keep.
  - apply V4toV5_handlers_keep.
Qed.

(** [update_header] touches the [version] key of the header only. *)
Lemma update_header_keeps (self : adapter) (msg : pyval) :
  returns_with (keeps_msg_type msg) (update_header self msg).
Proof.
  intros r Hr. destruct self; cbn [update_header] in Hr.
  - injection Hr as <-. apply keeps_refl.
  - unfold V5toV4.update_header in Hr.
    destruct msg as [| | | | |m|]; try discriminate. cbn [getitem] in Hr.
    destruct (m !! "header") as [header|] eqn:Hh; [|discriminate].
    destruct header as [| | | | |h|]; try discriminate.
    injection Hr as <-.
    unfold keeps_msg_type, header_msg_type, top_msg_type.
    rewrite lookup_insert_eq, lookup_insert_ne, Hh by discriminate.
    rewrite lookup_delete_ne by discriminate. split; reflexivity.
  - unfold V4toV5.update_header in Hr.
    destruct msg as [| | | | |m|]; try discriminate. cbn [getitem] in Hr.
    destruct (m !! "header") as [header|] eqn:Hh; [|discriminate].
    destruct header as [| | | | |h|]; try discriminate.
    injection Hr as <-.
    unfold keeps_msg_type, header_msg_type, top_msg_type.
    rewrite lookup_insert_eq, lookup_insert_ne, Hh by discriminate.
    rewrite lookup_insert_ne by discriminate. split; reflexivity.
Qed.

(** [update_msg_type] either renames both copies to the entry of the rename
    table, or returns the message as it is. *)
Lemma update_msg_type_spec (self : adapter) (msg r : pyval) :
  update_msg_type self msg = Ok r →
  ∃ tv, header_msg_type msg = Some tv ∧
    ((∃ t new, tv = VStr t ∧ msg_type_map self !! t = Some new ∧
               header_msg_type r = Some (VStr new) ∧
               top_msg_type r = Some (VStr new)) ∨
     ((∀ t, tv = VStr t → msg_type_map self !! t = None) ∧ r = msg)).
Proof.
  unfold update_msg_type, Adapter.update_msg_type. intros Hr.
  destruct msg as [| | | | |m|]; try discriminate. cbn [getitem] in Hr.
  destruct (m !! "header") as [header|] eqn:Hh; [|discriminate].
  destruct header as [| | | | |h|]; try discriminate.
  cbn [mbind result_bind getitem] in Hr.
  destruct (h !! "msg_type") as [tv|] eqn:Ht; [|discriminate].
  exists tv. split; [unfold header_msg_type; rewrite Hh; exact Ht|].
  cbn [mbind result_bind] in Hr.
  destruct tv as [| | |t| | |]; cbn [in_map mbind result_bind] in Hr;
    try discriminate; try (injection Hr as <-; right; split; [discriminate | reflexivity]).
  destruct (msg_type_map self !! t) as [new|] eqn:Hmap.
  - cbn [setitem mbind result_bind] in Hr. injection Hr as <-.
    left. exists t, new. split; [reflexivity|]. split; [exact Hmap|]. split.
    + unfold header_msg_type. rewrite lookup_insert_eq. apply lookup_insert_eq.
    + unfold top_msg_type. rewrite lookup_insert_ne by discriminate.
      apply lookup_insert_eq.
  - injection Hr as <-. right. split; [|reflexivity]. intros t' [= <-]. exact Hmap.
Qed.

(** No rename gives the name of a method or of an attribute of a class. *)
Lemma renamed_not_class_attr (self : adapter) (t new : string)
  (reenter : pyval → result pyval) :
  msg_type_map self !! t = Some new →
  class_attrs self reenter !! new = None ∧ msg_type_map self !! new = None.
Proof.
  intros H. destruct self; cbn [msg_type_map] in H.
  - unfold Adapter.msg_type_map in H. rewrite lookup_empty in H. discriminate.
  - apply elem_of_map_to_list in H. vm_compute map_to_list in H.
    repeat (apply elem_of_cons in H as [[= _ ->] | H]; [split; reflexivity|]).
    apply elem_of_nil in H. destruct H.
  - apply elem_of_map_to_list in H. vm_compute map_to_list in H.
    repeat (apply elem_of_cons in H as [[= _ ->] | H]; [split; reflexivity|]).
    apply elem_of_nil in H. destruct H.
Qed.

Lemma not_renamed_update_msg_type (self : adapter) :
  msg_type_map self !! "update_msg_type" = None ∧
  msg_type_map self !! "__call__" = None.
Proof. destruct self; split; reflexivity. Qed.

(** What the other attributes of the class do when [__call__] finds them
    under the message type. *)
Lemma class_attr_keeps (self : adapter) (reenter : pyval → result pyval)
  (s : string) (f : pyval → result pyval) (m r : pyval) :
  class_attrs self reenter !! s = Some f →
  header_msg_type m = Some (VStr s) →
  f m = Ok r →
  keeps_msg_type m r ∨ (s = "__call__" ∧ reenter m = Ok r).
Proof.
  intros Hf Ht Hr. unfold class_attrs in Hf.
  apply elem_of_list_to_map_2 in Hf.
  assert (Hcases : (s, f) ∈ [("msg_type_map", not_callable);
                             ("update_header", update_header self);
                             ("update_metadata", update_metadata self);
                             ("update_msg_type", update_msg_type self);
                             ("handle_reply_status_error",
                               fun msg => call_bound handle_reply_status_error self [msg]);
                             ("__call__", reenter);
                             ("version", not_callable)]).
  { destruct self; cbn [app] in Hf; rewrite !elem_of_cons in *; tauto. }
  clear Hf.
  apply elem_of_cons in Hcases as [[= -> ->] | Hcases]; [discriminate|].
  apply elem_of_cons in Hcases as [[= -> ->] | Hcases].
  { left. exact (update_header_keeps self m r Hr). }
  apply elem_of_cons in Hcases as [[= -> ->] | Hcases].
  { left. injection Hr as <-. apply keeps_refl. }
  apply elem_of_cons in Hcases as [[= -> ->] | Hcases].
  { left. apply update_msg_type_spec in Hr as (tv & Htv & [Hren | [_ ->]]);
      [|apply keeps_refl].
    destruct Hren as (t & new & -> & Hmap & _).
    rewrite Ht in Htv. injection Htv as <-.
    rewrite (proj1 (not_renamed_update_msg_type self)) in Hmap. discriminate. }
  apply elem_of_cons in Hcases as [[= -> ->] | Hcases]; [discriminate|].
  apply elem_of_cons in Hcases as [[= -> ->] | Hcases]; [right; auto|].
  apply elem_of_cons in Hcases as [[= -> ->] | Hcases]; [discriminate|].
  apply elem_of_nil in Hcases. destruct Hcases.
Qed.

Lemma getitem_msg_type (m header tv : pyval) :
  getitem m "header" = Ok header →
  getitem header "msg_type" = Ok tv →
  header_msg_type m = Some tv.
Proof.
  destruct m as [| | | | |d|]; try discriminate. cbn [getitem header_msg_type].
  destruct (d !! "header") as [h|]; [|discriminate]. intros [= ->].
  destruct header as [| | | | |h|]; try discriminate. cbn [getitem].
  destruct (h !! "msg_type"); [|discriminate]. congruence.
Qed.

(** The body of [__call__], for any [reenter] that keeps both copies. *)
Lemma call_body_sync (E : Env) (reenter : pyval → result pyval) (self : adapter)
  (msg r : pyval) :
  (∀ m r', header_msg_type m = Some (VStr "__call__") →
           object_attr self "__call__" = None →
           reenter m = Ok r' → keeps_msg_type m r') →
  call_body reenter self msg = Ok r →
  (∀ n, dispatch_name self msg = Some n → object_attr self n = None) →
  ∃ t, header_msg_type msg = Some (VStr t) ∧
    match msg_type_map self !! t with
    | Some new => header_msg_type r = Some (VStr new) ∧
                  top_msg_type r = Some (VStr new)
    | None => keeps_msg_type msg r
    end.
Proof.
  intros Hre Hrun Hobj. unfold call_body in Hrun.
  apply bind_Ok in Hrun as (m1 & H1 & Hrun).
  apply bind_Ok in Hrun as (m1' & [= <-] & Hrun).
  apply bind_Ok in Hrun as (m2 & H2 & Hrun).
  apply bind_Ok in Hrun as (header & Hh & Hrun).
  apply bind_Ok in Hrun as (tv2 & Ht2 & Hrun).
  apply bind_Ok in Hrun as (handler & Hg & Hrun).
  pose proof (getitem_msg_type _ _ _ Hh Ht2) as Hm2.
  destruct tv2 as [| | |s| | |]; try discriminate. cbn [getattr] in Hg.
  injection Hg as Hg.
  pose proof (update_header_keeps self msg m1 H1) as [K1 K1'].
  (* the message type before the rename, and the name dispatched on *)
  assert (Hname : ∃ t, header_msg_type msg = Some (VStr t) ∧
            dispatch_name self msg = Some s ∧
            match msg_type_map self !! t with
            | Some new => header_msg_type m2 = Some (VStr new) ∧
                          top_msg_type m2 = Some (VStr new)
            | None => keeps_msg_type msg m2
            end).
  { apply update_msg_type_spec in H2 as (tv & Htv & [Hren | [Hno ->]]).
    - destruct Hren as (t & new & -> & Hmap & Hhd & Htop).
      exists t. rewrite <- K1, Htv. split; [reflexivity|].
      rewrite Hm2 in Hhd. injection Hhd as ->.
      unfold dispatch_name. rewrite <- K1, Htv, Hmap. auto.
    - rewrite Hm2 in Htv. injection Htv as <-.
      exists s. rewrite <- K1, Hm2. split; [reflexivity|].
      unfold dispatch_name. rewrite <- K1, Hm2, (Hno s eq_refl).
      split; [reflexivity|]. split; assumption. }
  destruct Hname as (t & Ht & Hdisp & Hsync).
  exists t. split; [exact Ht|].
  (* whatever the handler is, it keeps both copies of [m2] *)
  assert (Hkeep : keeps_msg_type m2 r).
  { destruct handler as [f|]; [|injection Hrun as <-; apply keeps_refl].
    apply bind_Ok in Hrun as (content & _ & Hrun).
    apply bind_Ok in Hrun as (status & _ & Hrun).
    apply bind_Ok in Hrun as (is_error & _ & Hrun).
    destruct is_error; [discriminate|].
    destruct (handlers self !! s) as [h|] eqn:Hhandler.
    { injection Hg as <-. exact (handlers_keep E self s h Hhandler m2 r Hrun). }
    destruct (class_attrs self reenter !! s) as [a|] eqn:Hattr.
    { injection Hg as <-.
      destruct (class_attr_keeps self reenter s a m2 r Hattr Hm2 Hrun)
        as [Hk | [-> Hr]]; [exact Hk|].
      apply Hre; [exact Hm2 | exact (Hobj _ Hdisp) | exact Hr]. }
    rewrite (Hobj s Hdisp) in Hg. discriminate. }
  destruct (msg_type_map self !! t) as [new|].
  - destruct Hsync as [Hhd Htop], Hkeep as [Kh Kt]. split; congruence.
  - exact (keeps_trans _ _ _ Hsync Hkeep).
Qed.

(** C7 (as amended).  When an adapter returns [r] for [msg], and the name the
    handler is looked up under is not an attribute inherited from [object]:
    the message type [t] of the header is a str; if the rename table maps
    [t] to [new], both [r['header']['msg_type']] and [r['msg_type']] are
    [new]; otherwise both copies are as they were in [msg], a missing copy
    still missing.  So the two copies agree in [r] when the type was renamed
    or when they agreed in [msg]; the adapter keeps the agreement, it does
    not bring it about. *)
Theorem msg_type_in_sync (E : Env) (depth : nat) (self : adapter) (msg r : pyval) :
  __call__ depth self msg = Ok r →
  (∀ n, dispatch_name self msg = Some n → object_attr self n = None) →
  ∃ t, header_msg_type msg = Some (VStr t) ∧
    match msg_type_map self !! t with
    | Some new => header_msg_type r = Some (VStr new) ∧
                  top_msg_type r = Some (VStr new)
    | None => header_msg_type r = header_msg_type msg ∧
              top_msg_type r = top_msg_type msg
    end ∧
    (top_msg_type msg = header_msg_type msg → top_msg_type r = header_msg_type r).
Proof.
  revert msg r. induction depth as [|d IH]; intros msg r Hrun Hobj.
  all: cbn [__call__] in Hrun.
  all: eapply call_body_sync in Hrun as (t & Ht & Hsync); [| |exact Hobj].
  all: try (exists t; split; [exact Ht|]; split; [exact Hsync|];
            destruct (msg_type_map self !! t);
            [destruct Hsync; congruence
            |destruct Hsync as [-> ->]; intros ->; reflexivity]).
  - intros m r' _ _ Hr. discriminate.
  - intros m r' Hm Hnone Hr.
    destruct (IH m r' Hr) as (t' & Ht' & Hs & _).
    + intros n Hn. unfold dispatch_name in Hn. rewrite Hm in Hn.
      rewrite (proj2 (not_renamed_update_msg_type self)) in Hn.
      injection Hn as <-. exact Hnone.
    + rewrite Hm in Ht'. injection Ht' as <-.
      rewrite (proj2 (not_renamed_update_msg_type self)) in Hs. exact Hs.
Qed.

Lemma msg_type_in_sync_witness :
  let msg := dict [("header", dict [("msg_type", VStr "execute_input");
                                    ("version", VStr "5.0")]);
                   ("msg_type", VStr "execute_input");
                   ("content", dict [("code", VStr "1+1")])] in
  let r := dict [("header", dict [("msg_type", VStr "pyin")]);
                 ("msg_type", VStr "pyin");
                 ("content", dict [("code", VStr "1+1")])] in
  @__call__ failing_env 0 V5toV4 msg = Ok r ∧
  ∃ t, header_msg_type msg = Some (VStr t) ∧
    match msg_type_map V5toV4 !! t with
    | Some new => header_msg_type r = Some (VStr new) ∧
                  top_msg_type r = Some (VStr new)
    | None => header_msg_type r = header_msg_type msg ∧
              top_msg_type r = top_msg_type msg
    end ∧
    (top_msg_type msg = header_msg_type msg → top_msg_type r = header_msg_type r).
Proof.
  intros msg r. split; [reflexivity|].
  apply (msg_type_in_sync failing_env 0 V5toV4 msg r); [reflexivity|].
  intros n _. reflexivity.
Defined.

(** C7, as stated, fails: a message that comes without the top-level copy,
    and whose type the table does not rename, is returned without it; the
    header's copy is there, the top-level one is not. *)
Lemma msg_type_not_in_sync :
  ∃ r, @__call__ failing_env 0 V4toV5
         (dict [("header", dict [("msg_type", VStr "execute_request")]);
                ("content", dict [("code", VStr "1+1")])]) = Ok r ∧
       header_msg_type r = Some (VStr "execute_request") ∧
       top_msg_type r = None ∧
       top_msg_type r ≠ header_msg_type r.
Proof.
  eexists. split; [reflexivity|]. split; [reflexivity|]. split; [reflexivity|].
  discriminate.
Qed.

(** ** The examples of the specification *)

Example code_to_line_second_line :
  code_to_line ("abc" ++ String "010" ("def" ++ String "010" "")) 5 =
    Ok ("def" ++ String "010" "", 1).
Proof. reflexivity. Qed.

Example version_to_segments : _version_str_to_list "5.0.dev" = [5; 0].
Proof. reflexivity. Qed.

Example py_int_accepts :
  py_int "05" = Some 5 ∧ py_int " -12 " = Some (-12) ∧ py_int "1_0" = Some 10 ∧
  py_int "+7" = Some 7.
Proof. repeat split; reflexivity. Qed.

Example py_int_rejects :
  py_int "dev" = None ∧ py_int "" = None ∧ py_int "1__0" = None ∧
  py_int "_1" = None ∧ py_int "1_" = None ∧ py_int "+ 1" = None.
Proof. repeat split; reflexivity. Qed.

(** [int()] strips \t, \n, \x85 and \xa0 around a numeral, and rejects one
    next to a separator \x1c ... \x1f. *)
Example py_int_white_space :
  py_int (String "009" ("5" ++ String "010" "")) = Some 5 ∧
  py_int (String "133" ("5" ++ String "160" "")) = Some 5 ∧
  py_int (String "028" "5") = None ∧ py_int (String "029" "5") = None ∧
  py_int (String "030" "5") = None ∧ py_int (String "031" "5") = None ∧
  py_int ("5" ++ String "031" "") = None.
Proof. repeat split; reflexivity. Qed.

(** A segment next to a separator is dropped like any other segment that is
    not a numeral, and at the head of a header's version it makes [adapt]
    raise. *)
Example version_to_segments_separators :
  _version_str_to_list (String "028" ("5." ++ String "031" "7.8")) = [8].
Proof. reflexivity. Qed.

Example adapt_separator_version (depth : nat) (to_version : Z) :
  @adapt failing_env depth
    (dict [("header", dict [("msg_type", VStr "execute_request");
                            ("version", VStr (String "031" "5.0"))]);
           ("content", dict [])]) to_version = Err ValueError.
Proof. reflexivity. Qed.

Example complete_reply_is_not_inverse :
  V4toV5.complete_reply
    (dict [("content", dict [("matched_text", VStr "bar");
                             ("matches", VList [VStr "barn"])])]) =
    Ok (dict [("content", dict [("status", VStr "ok");
                                ("matches", VList [VStr "barn"]);
                                ("cursor_start", VInt (-3));
                                ("cursor_end", VNone);
                                ("metadata", dict [])])]).
Proof. reflexivity. Qed.

(** A message type that names [__call__] itself never returns. *)
Example dispatch_on_call (depth : nat) :
  @__call__ failing_env depth V5toV4
    (dict [("header", dict [("msg_type", VStr "__call__")]);
           ("content", dict [])]) = Err RecursionError.
Proof. induction depth as [|d IH]; [reflexivity|]. exact IH. Qed.

(** A header without [version] is read as version 4, like ["4.1"]. *)
Example from_version_default :
  from_version (dict [("msg_type", VStr "pyin")]) = Ok 4 ∧
  from_version (dict [("msg_type", VStr "pyin"); ("version", VStr "4.1")]) = Ok 4.
Proof. split; reflexivity. Qed.

(** An [object_info_reply] of version 4, adapted to version 5. *)
Example adapt_object_info_reply (depth : nat) :
  @adapt failing_env depth
    (dict [("header", dict [("msg_type", VStr "object_info_reply")]);
           ("msg_type", VStr "object_info_reply");
           ("content", VDict inspect_reply_content)]) 5 =
    Ok (dict [("header", dict [("msg_type", VStr "inspect_reply");
                               ("version", VStr "5.0")]);
              ("msg_type", VStr "inspect_reply");
              ("content",
               dict [("status", VStr "ok");
                     ("found", VBool true);
                     ("name", VStr "f");
                     ("data", dict [("text/plain",
                                     VStr ("f(x)" ++ String "010" "does a thing"))]);
                     ("metadata", dict [])])]).
Proof. destruct depth; reflexivity. Qed.

(** * Further properties *)

(** ** The version utility, from the list back to the list *)

Lemma split_dot_no_dot (s : string) : no_dot s → split_dot s = [s].
Proof.
  unfold no_dot. induction s as [|c r IH]; [reflexivity|].
  cbn [list_ascii_of_string split_dot]. intros H.
  apply Forall_cons in H as [Hc Hr].
  destruct (Ascii.eqb_spec c "."); [contradiction|].
  rewrite (IH Hr). reflexivity.
Qed.

Lemma split_dot_app (s rest : string) :
  no_dot s → split_dot (s ++ String "." rest) = s :: split_dot rest.
Proof.
  unfold no_dot. induction s as [|c r IH]; [reflexivity|].
  cbn [list_ascii_of_string]. intros H.
  apply Forall_cons in H as [Hc Hr].
  rewrite append_cons. cbn [split_dot].
  destruct (Ascii.eqb_spec c "."); [contradiction|].
  rewrite (IH Hr). reflexivity.
Qed.

Lemma join_dot_cons (x y : string) (l : list string) :
  join "." (x :: y :: l) = x ++ String "." (join "." (y :: l)).
Proof. reflexivity. Qed.

Lemma split_dot_join (l : list string) :
  l ≠ [] → Forall no_dot l → split_dot (join "." l) = l.
Proof.
  induction l as [|x l IH]; [congruence|]. intros _ H.
  apply Forall_cons in H as [Hx Hl].
  destruct l as [|y l]; [exact (split_dot_no_dot x Hx)|].
  rewrite join_dot_cons, split_dot_app by exact Hx.
  rewrite IH by (congruence || exact Hl). reflexivity.
Qed.

Lemma uint_chars_no_dot (u : Decimal.uint) :
  Forall (fun c => c ≠ "."%char) (uint_chars u).
Proof. induction u; constructor; (discriminate || assumption). Qed.

Lemma str_of_int_no_dot (n : Z) : no_dot (str_of_int n).
Proof.
  unfold no_dot, str_of_int.
  destruct n as [|p|p]; cbn [Z.to_int NilZero.string_of_int];
    [repeat constructor; discriminate|..]; rewrite string_of_uint_pos.
  - apply uint_chars_no_dot.
  - constructor; [discriminate | apply uint_chars_no_dot].
Qed.

Lemma omap_py_int_str_of_int (v : list Z) : omap py_int (str_of_int <$> v) = v.
Proof.
  induction v as [|n v IH]; [reflexivity|].
  cbn [fmap list_fmap omap list_omap]. rewrite py_int_str_of_int.
  f_equal. exact IH.
Qed.

Lemma version_str_of_list (v : list Z) :
  _version_str_to_list (version_list_to_str v) = v.
Proof.
  unfold _version_str_to_list, version_list_to_str.
  destruct v as [|n v]; [reflexivity|].
  rewrite split_dot_join.
  - apply omap_py_int_str_of_int.
  - discriminate.
  - apply Forall_fmap, Forall_forall. intros m _. apply str_of_int_no_dot.
Qed.

(** X1.  Joining a list of ints with dots and reading the string back with
    [_version_str_to_list] gives the list, the empty list included; on
    values, the version 4 form of a version survives the way to version 5
    and back. *)
Theorem version_list_roundtrip (E : Env) (v : list Z) :
  _version_str_to_list (version_list_to_str v) = v ∧
  (s ← version_list_to_str_val (VList (VInt <$> v)); _version_str_to_list_val s) =
    Ok (VList (VInt <$> v)).
Proof.
  split; [apply version_str_of_list|].
  unfold version_list_to_str_val. cbn [py_iter mbind result_bind].
  rewrite <- list_fmap_compose. cbn [_version_str_to_list_val].
  change (join "." ((py_str ∘ VInt) <$> v)) with (version_list_to_str v).
  rewrite version_str_of_list. reflexivity.
Qed.

(** ** [code_to_line] at the boundaries *)

Lemma code_to_line_loop_positive (lines : list string) :
  ∀ cur pos line rel,
    0 < pos → code_to_line_loop lines cur pos = (Some line, rel) → 0 < rel.
Proof.
  induction lines as [|l rest IH]; intros cur pos line rel Hpos; cbn [code_to_line_loop].
  - intros [= _ <-]. exact Hpos.
  - destruct (Z.gtb_spec pos (len l)) as [Hgt|Hle].
    + apply IH. lia.
    + intros [= _ <-]. exact Hpos.
Qed.

Lemma code_to_line_loop_first (l : string) (rest : list string) (cur : option string)
  (pos : Z) :
  pos <= len l → code_to_line_loop (l :: rest) cur pos = (Some l, pos).
Proof.
  intros H. cbn [code_to_line_loop].
  destruct (Z.gtb_spec pos (len l)); [lia | reflexivity].
Qed.

(** X2.  What [code_to_line] returns at the boundaries.  A positive offset
    never comes back as the relative offset 0: the offset just after a line
    terminator is reported at the end of that line, not at the start of the
    next one.  An offset that is zero or negative comes back as it is, with
    the first line. *)
Theorem code_to_line_boundary (code line : string) (pos rel : Z) :
  code_to_line code pos = Ok (line, rel) →
  (0 < pos → 0 < rel) ∧
  (pos <= 0 → rel = pos ∧ head (splitlines code) = Some line).
Proof.
  unfold code_to_line. intros Hrun.
  destruct (code_to_line_loop (splitlines code) None pos) as [[l|] r] eqn:Hloop;
    [|discriminate].
  injection Hrun as -> ->. split.
  - intros Hpos. exact (code_to_line_loop_positive _ _ _ _ _ Hpos Hloop).
  - intros Hpos. destruct (splitlines code) as [|l0 rest]; [discriminate|].
    rewrite code_to_line_loop_first in Hloop by (unfold len; lia).
    injection Hloop as <- <-. split; reflexivity.
Qed.

Lemma code_to_line_boundary_witness :
  code_to_line ("ab" ++ String "010" "cd") 3 = Ok ("ab" ++ String "010" "", 3) ∧
  0 < 3.
Proof.
  split; [reflexivity|].
  apply (proj1 (code_to_line_boundary ("ab" ++ String "010" "cd")
                  ("ab" ++ String "010" "") 3 3 eq_refl)).
  lia.
Defined.

(** ** The major version of a header *)

(** X3.  When the [version] of the header is the decimal rendering of an
    int, alone or followed by further dot-separated segments of any kind,
    the source major version is that int. *)
Theorem from_version_major (header : gmap string pyval) (n : Z) (rest : list string) :
  header !! "version" = Some (VStr (join "." (str_of_int n :: rest))) →
  from_version (VDict header) = Ok n.
Proof.
  intros Hv. unfold from_version. rewrite (contains_Some _ _ _ Hv).
  cbn [mbind result_bind getitem]. rewrite Hv. cbn [mbind result_bind].
  assert (Hsplit : ∃ tl, split_dot (join "." (str_of_int n :: rest)) = str_of_int n :: tl).
  { destruct rest as [|y rest].
    - exists []. apply split_dot_no_dot, str_of_int_no_dot.
    - eexists. rewrite join_dot_cons. apply split_dot_app, str_of_int_no_dot. }
  destruct Hsplit as [tl ->]. rewrite py_int_str_of_int. reflexivity.
Qed.

Lemma from_version_major_witness :
  from_version (dict [("msg_type", VStr "pyin"); ("version", VStr "5.0.dev")]) = Ok 5.
Proof.
  apply (from_version_major
           (list_to_map [("msg_type", VStr "pyin"); ("version", VStr "5.0.dev")])
           5 ["0"; "dev"]).
  reflexivity.
Defined.

(** ** Requests on an empty cell *)

(** X4.  A [complete_request] or an [inspect_request] of version 5 whose
    [code] is the empty str is not adapted: [code_to_line] returns a loop
    variable that no iteration bound, and both transforms raise
    UnboundLocalError, whatever the cursor position is and before
    [token_at_cursor] is called. *)
Theorem empty_code_raises (E : Env) (m c : gmap string pyval) (cursor_pos : pyval) :
  m !! "content" = Some (VDict c) →
  c !! "code" = Some (VStr "") →
  c !! "cursor_pos" = Some cursor_pos →
  V5toV4.complete_request (VDict m) = Err UnboundLocalError ∧
  V5toV4.object_info_request (VDict m) = Err UnboundLocalError.
Proof.
  intros Hc Hcode Hpos.
  unfold V5toV4.complete_request, V5toV4.object_info_request.
  cbn [getitem]. rewrite Hc. cbn [mbind result_bind getitem].
  rewrite Hcode. cbn [mbind result_bind]. rewrite Hpos. split; reflexivity.
Qed.

Lemma empty_code_raises_witness :
  let msg := dict [("header", dict [("msg_type", VStr "complete_request");
                                    ("version", VStr "5.0")]);
                   ("content", dict [("code", VStr ""); ("cursor_pos", VInt 0)])] in
  V5toV4.complete_request msg = Err UnboundLocalError ∧
  @V5toV4.object_info_request failing_env msg = Err UnboundLocalError.
Proof.
  intros msg.
  apply (empty_code_raises failing_env
           (list_to_map [("header", dict [("msg_type", VStr "complete_request");
                                          ("version", VStr "5.0")]);
                         ("content", dict [("code", VStr ""); ("cursor_pos", VInt 0)])])
           (list_to_map [("code", VStr ""); ("cursor_pos", VInt 0)]) (VInt 0));
    reflexivity.
Defined.

(** Lookups through inserts and deletes at keys that are literals. *)
Ltac map_lookups :=
  repeat first
    [ rewrite lookup_insert_eq
    | rewrite lookup_delete_eq
    | rewrite lookup_insert_ne by discriminate
    | rewrite lookup_delete_ne by discriminate
    | rewrite lookup_empty ].

(** ** [complete_reply], there and back *)

Lemma substring_length (s : string) (k : nat) :
  String.length (String.substring 0 k s) = Nat.min k (String.length s).
Proof.
  revert k. induction s as [|c r IH]; intros [|k]; try reflexivity.
  cbn [String.substring String.length Nat.min]. rewrite IH. reflexivity.
Qed.

Lemma len_str_slice_to (s : string) (n : Z) :
  0 <= n → len (str_slice_to s n) = Z.min n (len s).
Proof.
  intros Hn. unfold str_slice_to, slice_to, len.
  destruct (Z.leb_spec 0 n); [|lia]. rewrite substring_length. lia.
Qed.

(** X5.  A [complete_reply] of version 5 without a match cannot be adapted
    to version 4: the transform reads [matches[0]] and raises IndexError. *)
Theorem complete_reply_no_matches (m c : gmap string pyval) (a b : pyval) (d : Z) :
  m !! "content" = Some (VDict c) →
  c !! "cursor_start" = Some a →
  c !! "cursor_end" = Some b →
  py_sub b a = Ok d →
  c !! "matches" = Some (VList []) →
  V5toV4.complete_reply (VDict m) = Err IndexError.
Proof.
  intros Hc Ha Hb Hd Hm.
  unfold V5toV4.complete_reply. cbn [getitem]. rewrite Hc.
  cbn [mbind result_bind pop]. rewrite Ha. cbn [mbind result_bind pop].
  rewrite lookup_delete_ne, Hb by discriminate.
  cbn [mbind result_bind]. rewrite Hd. cbn [mbind result_bind getitem].
  rewrite !lookup_delete_ne, Hm by discriminate. reflexivity.
Qed.

Lemma complete_reply_no_matches_witness :
  V5toV4.complete_reply
    (dict [("content", dict [("matches", VList []); ("cursor_start", VInt 2);
                             ("cursor_end", VInt 2)])]) = Err IndexError.
Proof.
  apply (complete_reply_no_matches
           (list_to_map [("content", dict [("matches", VList []); ("cursor_start", VInt 2);
                                           ("cursor_end", VInt 2)])])
           (list_to_map [("matches", VList []); ("cursor_start", VInt 2);
                         ("cursor_end", VInt 2)])
           (VInt 2) (VInt 2) 0); reflexivity.
Defined.

(** X6.  Adapting a [complete_reply] from version 5 to version 4 and back
    does not give the cursor range back.  For int positions with
    [cursor_start <= cursor_end] and a first match that is a str, the result
    has [cursor_start] equal to minus the smaller of
    [cursor_end - cursor_start] and the length of the first match,
    [cursor_end] equal to [None], the matches as they were, and no other key
    of the original content. *)
Theorem complete_reply_there_and_back (m c : gmap string pyval) (a b : Z)
  (s : string) (rest : list pyval) :
  m !! "content" = Some (VDict c) →
  c !! "cursor_start" = Some (VInt a) →
  c !! "cursor_end" = Some (VInt b) →
  a <= b →
  c !! "matches" = Some (VList (VStr s :: rest)) →
  (r ← V5toV4.complete_reply (VDict m); V4toV5.complete_reply r) =
    Ok (VDict (<["content" :=
                 dict [("status", VStr "ok");
                       ("matches", VList (VStr s :: rest));
                       ("cursor_start", VInt (- Z.min (b - a) (len s)));
                       ("cursor_end", VNone);
                       ("metadata", dict [])]]> m)).
Proof.
  intros Hc Ha Hb Hab Hm.
  rewrite (complete_reply_spec m c a b s rest Hc Ha Hb Hm).
  cbn [mbind result_bind]. unfold V4toV5.complete_reply.
  cbn [getitem]. map_lookups. cbn [mbind result_bind getitem].
  map_lookups. rewrite Hm. cbn [mbind result_bind py_len].
  rewrite len_str_slice_to by lia.
  cbn [setitem]. rewrite insert_insert_eq. reflexivity.
Qed.

Lemma complete_reply_there_and_back_witness :
  (r ← V5toV4.complete_reply (dict [("content", VDict complete_reply_content)]);
   V4toV5.complete_reply r) =
    Ok (dict [("content",
               dict [("status", VStr "ok");
                     ("matches", VList [VStr "foobar"; VStr "foobaz"]);
                     ("cursor_start", VInt (-3));
                     ("cursor_end", VNone);
                     ("metadata", dict [])])]).
Proof.
  refine (eq_trans
            (complete_reply_there_and_back
               (list_to_map [("content", VDict complete_reply_content)])
               complete_reply_content 3 6 "foobar" [VStr "foobaz"] _ _ _ _ _) _);
    first [reflexivity | lia].
Defined.

(** ** [input_request], there and back *)

(** X7.  [input_request] in both orders.  From version 4 to 5 and back, the
    content comes back without a [password] key, so a version 4 content,
    which has none, comes back as it was.  From version 5 to 4 and back,
    [password] comes back as [False], whatever it was. *)
Theorem input_request_there_and_back (m c : gmap string pyval) :
  m !! "content" = Some (VDict c) →
  (r ← V4toV5.input_request (VDict m); V5toV4.input_request r) =
    Ok (VDict (<["content" := VDict (delete "password" c)]> m)) ∧
  (c !! "password" = None →
   (r ← V4toV5.input_request (VDict m); V5toV4.input_request r) = Ok (VDict m)) ∧
  (r ← V5toV4.input_request (VDict m); V4toV5.input_request r) =
    Ok (VDict (<["content" := VDict (<["password" := VBool false]> c)]> m)).
Proof.
  intros Hc.
  assert (H454 : (r ← V4toV5.input_request (VDict m); V5toV4.input_request r) =
                 Ok (VDict (<["content" := VDict (delete "password" c)]> m))).
  { unfold V4toV5.input_request, V5toV4.input_request.
    cbn [getitem]. rewrite Hc. cbn [mbind result_bind setdefault].
    destruct (c !! "password") as [p|] eqn:Hp;
      cbn [mbind result_bind setitem getitem]; map_lookups;
      cbn [mbind result_bind pop_default setitem]; rewrite insert_insert_eq.
    - reflexivity.
    - rewrite delete_insert_eq. rewrite (delete_id c "password" Hp). reflexivity. }
  split; [exact H454|]. split.
  - intros Hp. rewrite H454, (delete_id c "password" Hp), (insert_id m _ _ Hc).
    reflexivity.
  - unfold V4toV5.input_request, V5toV4.input_request.
    cbn [getitem]. rewrite Hc. cbn [mbind result_bind pop_default setitem getitem].
    map_lookups. cbn [mbind result_bind setdefault]. map_lookups.
    cbn [mbind result_bind setitem]. rewrite insert_insert_eq, insert_delete_eq.
    reflexivity.
Qed.

Lemma input_request_there_and_back_witness :
  let msg := dict [("content", dict [("prompt", VStr ">>> "); ("password", VBool true)])] in
  (r ← V5toV4.input_request msg; V4toV5.input_request r) =
    Ok (dict [("content", dict [("prompt", VStr ">>> "); ("password", VBool false)])]).
Proof.
  intros msg.
  refine (eq_trans
            (proj2 (proj2 (input_request_there_and_back
               (list_to_map [("content", dict [("prompt", VStr ">>> ");
                                               ("password", VBool true)])])
               (list_to_map [("prompt", VStr ">>> "); ("password", VBool true)]) _))) _);
    reflexivity.
Defined.

(** ** [execute_request] and [execute_reply] *)

(** X8.  An [execute_request] or an [execute_reply] of version 5, which has
    [user_expressions] and no [user_variables], comes back as it was from
    the way to version 4 and back. *)
Theorem execute_there_and_back (m c : gmap string pyval) (user_expressions : pyval) :
  m !! "content" = Some (VDict c) →
  c !! "user_expressions" = Some user_expressions →
  c !! "user_variables" = None →
  (r ← V5toV4.execute_request (VDict m); V4toV5.execute_request r) = Ok (VDict m) ∧
  (r ← V5toV4.execute_reply (VDict m); V4toV5.execute_reply r) = Ok (VDict m).
Proof.
  intros Hc Hue Huv.
  assert (Hback : ∀ v, <["content" :=
                          VDict (<["user_expressions" := user_expressions]>
                                   (delete "user_variables" (<["user_variables" := v]> c)))]>
                         (<["content" := VDict (<["user_variables" := v]> c)]> m) = m).
  { intros v. rewrite insert_insert_eq, delete_insert_eq, (delete_id c _ Huv).
    rewrite (insert_id c _ _ Hue). apply insert_id. exact Hc. }
  split.
  - unfold V5toV4.execute_request, V4toV5.execute_request.
    cbn [getitem]. rewrite Hc. cbn [mbind result_bind setdefault]. rewrite Huv.
    cbn [mbind result_bind setitem getitem]. map_lookups.
    cbn [mbind result_bind pop_default setdefault]. map_lookups. rewrite Hue.
    unfold default, id. cbn [mbind result_bind py_iter for_each setitem].
    rewrite Hback. reflexivity.
  - unfold V5toV4.execute_reply, V4toV5.execute_reply.
    cbn [getitem]. rewrite Hc. cbn [mbind result_bind setdefault]. rewrite Huv.
    cbn [mbind result_bind setitem getitem]. map_lookups.
    cbn [mbind result_bind setdefault]. map_lookups. rewrite Hue.
    cbn [mbind result_bind pop_default]. map_lookups.
    unfold default, id. change (truthy (VDict ∅)) with false.
    cbn [mbind result_bind setitem]. rewrite Hback. reflexivity.
Qed.

Lemma execute_there_and_back_witness :
  let msg := dict [("content", dict [("code", VStr "a = 1");
                                     ("user_expressions", dict [("a", VStr "a")])])] in
  (r ← V5toV4.execute_request msg; V4toV5.execute_request r) = Ok msg.
Proof.
  intros msg.
  refine (proj1 (execute_there_and_back
                   (list_to_map [("content", dict [("code", VStr "a = 1");
                                                   ("user_expressions", dict [("a", VStr "a")])])])
                   (list_to_map [("code", VStr "a = 1");
                                 ("user_expressions", dict [("a", VStr "a")])])
                   (dict [("a", VStr "a")]) _ _ _)); reflexivity.
Defined.

Lemma for_each_user_variables (vs : list string) :
  ∀ ue : gmap string pyval,
    for_each (VStr <$> vs) (fun v ue => k ← dict_key v; setitem ue k v) (VDict ue) =
      Ok (VDict (foldl (fun acc v => <[v := VStr v]> acc) ue vs)).
Proof.
  induction vs as [|v vs IH]; intros ue; [reflexivity|].
  cbn [fmap list_fmap for_each dict_key mbind result_bind setitem foldl]. apply IH.
Qed.

Lemma lookup_user_variables (vs : list string) :
  ∀ (ue : gmap string pyval) (k : string),
    foldl (fun acc v => <[v := VStr v]> acc) ue vs !! k =
      if bool_decide (k ∈ vs) then Some (VStr k) else ue !! k.
Proof.
  induction vs as [|v vs IH]; intros ue k; [reflexivity|].
  cbn [foldl]. rewrite IH.
  destruct (decide (k ∈ vs)) as [Hin|Hnin].
  - rewrite !bool_decide_true; [reflexivity | right; exact Hin | exact Hin].
  - rewrite (bool_decide_false _ Hnin). destruct (decide (k = v)) as [->|Hne].
    + rewrite bool_decide_true by left. apply lookup_insert_eq.
    + rewrite bool_decide_false by (intros Hin; apply elem_of_cons in Hin as [?|?]; tauto).
      apply lookup_insert_ne. congruence.
Qed.

(** X9.  [V4toV5.execute_request] on a content whose [user_variables] is a
    list of str and whose [user_expressions] is a dict or is missing: the
    result has no [user_variables], and its [user_expressions] maps every
    listed variable to its own name and every other key to what the
    [user_expressions] of the request had for it; no other key of the
    content changes. *)
Theorem execute_request_user_variables (m c ue : gmap string pyval) (vs : list string) :
  m !! "content" = Some (VDict c) →
  c !! "user_variables" = Some (VList (VStr <$> vs)) →
  (c !! "user_expressions" = Some (VDict ue) ∨
   c !! "user_expressions" = None ∧ ue = ∅) →
  ∃ ue' : gmap string pyval,
    V4toV5.execute_request (VDict m) =
      Ok (VDict (<["content" :=
                   VDict (<["user_expressions" := VDict ue']>
                            (delete "user_variables" c))]> m)) ∧
    ∀ k, ue' !! k = if bool_decide (k ∈ vs) then Some (VStr k) else ue !! k.
Proof.
  intros Hc Huv Hue.
  exists (foldl (fun acc v => <[v := VStr v]> acc) ue vs).
  split; [|apply lookup_user_variables].
  unfold V4toV5.execute_request. cbn [getitem]. rewrite Hc.
  cbn [mbind result_bind pop_default]. rewrite Huv. unfold default, id.
  cbn [mbind result_bind setdefault]. map_lookups.
  destruct Hue as [Hue | [Hue ->]]; rewrite Hue;
    cbn [mbind result_bind py_iter]; rewrite for_each_user_variables;
    cbn [mbind result_bind setitem]; rewrite ?insert_insert_eq; reflexivity.
Qed.

Lemma execute_request_user_variables_witness :
  ∃ ue' : gmap string pyval,
    V4toV5.execute_request
      (dict [("content", dict [("code", VStr "a = 1");
                               ("user_variables", VList [VStr "a"])])]) =
      Ok (dict [("content", dict [("code", VStr "a = 1");
                                  ("user_expressions", VDict ue')])]) ∧
    ue' !! "a" = Some (VStr "a").
Proof.
  edestruct (execute_request_user_variables
               (list_to_map [("content", dict [("code", VStr "a = 1");
                                               ("user_variables", VList [VStr "a"])])])
               (list_to_map [("code", VStr "a = 1"); ("user_variables", VList [VStr "a"])])
               ∅ ["a"])
    as (ue' & Hrun & Hue'); [reflexivity | reflexivity | right; split; reflexivity |].
  exists ue'. split; [exact Hrun | exact (Hue' "a")].
Defined.

(** X10.  [V4toV5.execute_reply] merges [user_variables] into
    [user_expressions]: when each of the two is a dict or is missing, the
    result has no [user_variables], and [user_expressions] holds, for every
    key, the value of [user_variables] when it has one and the value of the
    old [user_expressions] otherwise. *)
Theorem execute_reply_merge (m c uv ue : gmap string pyval) :
  m !! "content" = Some (VDict c) →
  (c !! "user_variables" = Some (VDict uv) ∨
   c !! "user_variables" = None ∧ uv = ∅) →
  (c !! "user_expressions" = Some (VDict ue) ∨
   c !! "user_expressions" = None ∧ ue = ∅) →
  V4toV5.execute_reply (VDict m) =
    Ok (VDict (<["content" :=
                 VDict (<["user_expressions" := VDict (uv ∪ ue)]>
                          (delete "user_variables" c))]> m)) ∧
  ∀ k, (uv ∪ ue) !! k = match uv !! k with
                        | Some v => Some v
                        | None => ue !! k
                        end.
Proof.
  intros Hc Huv Hue. split.
  - unfold V4toV5.execute_reply. cbn [getitem]. rewrite Hc.
    cbn [mbind result_bind setdefault].
    assert (Hmerge : (if truthy (VDict uv) then py_update (VDict ue) (VDict uv)
                      else Ok (VDict ue)) = Ok (VDict (uv ∪ ue))).
    { cbn [truthy py_update]. case_bool_decide as Hempty; cbn [negb]; [|reflexivity].
      rewrite Hempty, (left_id_L ∅ (∪)). reflexivity. }
    destruct Hue as [Hue | [Hue ->]]; rewrite Hue;
      cbn [mbind result_bind pop_default]; map_lookups;
      (destruct Huv as [Huv | [Huv ->]]; rewrite Huv; unfold default, id;
       rewrite Hmerge; cbn [mbind result_bind setitem];
       rewrite ?delete_insert_ne by discriminate;
       rewrite ?insert_insert_eq; reflexivity).
  - intros k. rewrite lookup_union. destruct (uv !! k), (ue !! k); reflexivity.
Qed.

Lemma execute_reply_merge_witness :
  V4toV5.execute_reply
    (dict [("content", dict [("status", VStr "ok");
                             ("user_variables", dict [("a", VStr "1")]);
                             ("user_expressions", dict [("a", VStr "0"); ("b", VStr "2")])])]) =
    Ok (dict [("content", dict [("status", VStr "ok");
                                ("user_expressions", dict [("a", VStr "1"); ("b", VStr "2")])])]).
Proof.
  refine (eq_trans
            (proj1 (execute_reply_merge
               (list_to_map [("content", dict [("status", VStr "ok");
                                               ("user_variables", dict [("a", VStr "1")]);
                                               ("user_expressions",
                                                dict [("a", VStr "0"); ("b", VStr "2")])])])
               (list_to_map [("status", VStr "ok");
                             ("user_variables", dict [("a", VStr "1")]);
                             ("user_expressions", dict [("a", VStr "0"); ("b", VStr "2")])])
               (list_to_map [("a", VStr "1")])
               (list_to_map [("a", VStr "0"); ("b", VStr "2")]) _ _ _)) _);
    first [reflexivity | left; reflexivity].
Defined.

(** ** [kernel_info_reply] *)

Lemma version_list_to_str_val_ints (E : Env) (v : list Z) :
  version_list_to_str_val (VList (VInt <$> v)) = Ok (VStr (version_list_to_str v)).
Proof.
  unfold version_list_to_str_val. cbn [py_iter mbind result_bind].
  rewrite <- list_fmap_compose. reflexivity.
Qed.

Lemma convert_if_present_Some (conv : pyval → result pyval) (key : string)
  (d : gmap string pyval) (v v' : pyval) :
  d !! key = Some v → conv v = Ok v' →
  convert_if_present conv key (VDict d) = Ok (VDict (<[key := v']> d)).
Proof.
  intros Hv Hconv. unfold convert_if_present. rewrite (contains_Some _ _ _ Hv).
  cbn [mbind result_bind getitem]. rewrite Hv. cbn [mbind result_bind].
  rewrite Hconv. reflexivity.
Qed.

Lemma convert_if_present_None (conv : pyval → result pyval) (key : string)
  (d : gmap string pyval) :
  d !! key = None → convert_if_present conv key (VDict d) = Ok (VDict d).
Proof.
  intros Hv. unfold convert_if_present. rewrite (contains_None _ _ Hv). reflexivity.
Qed.

(** Equality of two maps built by inserts and deletes at literal keys. *)
Ltac map_eq_keys :=
  let k := fresh "k" in
  apply map_eq; intros k;
  repeat first [rewrite lookup_insert | rewrite lookup_delete];
  repeat (case_decide; simplify_eq; try done); try congruence.

(** What [V4toV5.kernel_info_reply] does to a reply of version 4 that has
    the two version lists and no [ipython_version]. *)
Lemma kernel_info_reply_4_to_5 (E : Env) (m c : gmap string pyval) (language : string)
  (lv pv : list Z) :
  m !! "content" = Some (VDict c) →
  c !! "language" = Some (VStr language) →
  c !! "language_version" = Some (VList (VInt <$> lv)) →
  c !! "protocol_version" = Some (VList (VInt <$> pv)) →
  c !! "ipython_version" = None →
  V4toV5.kernel_info_reply (VDict m) =
    Ok (VDict (<["content" :=
                 VDict (<["banner" := VStr ""]>
                         (<["protocol_version" := VStr (version_list_to_str pv)]>
                           (<["language_version" := VStr (version_list_to_str lv)]> c)))]> m)).
Proof.
  intros Hc Hlang Hlv Hpv Hiv.
  unfold V4toV5.kernel_info_reply. cbn [getitem]. rewrite Hc.
  cbn [mbind result_bind for_each].
  rewrite (convert_if_present_Some _ _ _ _ _ Hlv (version_list_to_str_val_ints E lv)).
  cbn [mbind result_bind].
  erewrite convert_if_present_Some;
    [|map_lookups; exact Hpv | apply version_list_to_str_val_ints].
  cbn [mbind result_bind].
  rewrite convert_if_present_None by (map_lookups; exact Hiv).
  cbn [mbind result_bind getitem]. map_lookups. rewrite Hlang.
  cbn [mbind result_bind].
  rewrite (contains_None _ "ipython_version") by (map_lookups; exact Hiv).
  destruct (String.prefix "python" language); reflexivity.
Qed.

(** X11.  A [kernel_info_reply] of version 4 that has [language],
    the version lists [language_version] and [protocol_version], and none
    of [ipython_version], [banner], [implementation],
    [implementation_version] and [implmentation], adapted to version 5 and
    back: the content comes back with its version lists as they were and
    with one more key, the misspelled [implmentation], holding the
    language. *)
Theorem kernel_info_reply_there_and_back (E : Env) (m c : gmap string pyval)
  (language : string) (lv pv : list Z) :
  m !! "content" = Some (VDict c) →
  c !! "language" = Some (VStr language) →
  c !! "language_version" = Some (VList (VInt <$> lv)) →
  c !! "protocol_version" = Some (VList (VInt <$> pv)) →
  c !! "ipython_version" = None →
  c !! "banner" = None →
  c !! "implementation" = None →
  c !! "implementation_version" = None →
  c !! "implmentation" = None →
  (r ← V4toV5.kernel_info_reply (VDict m); V5toV4.kernel_info_reply r) =
    Ok (VDict (<["content" := VDict (<["implmentation" := VStr language]> c)]> m)).
Proof.
  intros Hc Hlang Hlv Hpv Hiv Hbanner Himpl Himplv Htypo.
  rewrite (kernel_info_reply_4_to_5 E m c language lv pv Hc Hlang Hlv Hpv Hiv).
  cbn [mbind result_bind]. unfold V5toV4.kernel_info_reply.
  cbn [getitem]. map_lookups. cbn [mbind result_bind pop_default for_each].
  erewrite convert_if_present_Some; [|map_lookups; reflexivity | reflexivity].
  cbn [mbind result_bind].
  erewrite convert_if_present_Some; [|map_lookups; reflexivity | reflexivity].
  cbn [mbind result_bind pop_default]. map_lookups. rewrite Himpl.
  unfold default, id. cbn [is_str String.eqb mbind result_bind pop_default getitem].
  map_lookups. rewrite Hlang. cbn [mbind result_bind setdefault]. map_lookups.
  rewrite Htypo. cbn [mbind result_bind setitem]. rewrite insert_insert_eq.
  rewrite !version_str_of_list. do 3 f_equal. f_equal. map_eq_keys.
Qed.

Lemma kernel_info_reply_there_and_back_witness :
  let msg := dict [("content", VDict julia_kernel_info_content)] in
  (r ← @V4toV5.kernel_info_reply failing_env msg; V5toV4.kernel_info_reply r) =
    Ok (dict [("content",
               VDict (<["implmentation" := VStr "julia"]> julia_kernel_info_content))]).
Proof.
  intros msg.
  refine (eq_trans
            (kernel_info_reply_there_and_back failing_env
               (list_to_map [("content", VDict julia_kernel_info_content)])
               julia_kernel_info_content "julia" [0; 3] [4; 1] _ _ _ _ _ _ _ _ _) _);
    reflexivity.
Defined.

(** X12.  [V4toV5.kernel_info_reply] on a reply of an IPython kernel: when
    [language] starts with [python] and [ipython_version],
    [language_version] and [protocol_version] are lists of ints, the result
    has the three versions as dotted strings, [implementation] equal to
    [ipython], the IPython version under [implementation_version] and no
    longer under [ipython_version], and an empty [banner]; the other keys
    are as they were. *)
Theorem kernel_info_reply_ipython_4_to_5 (E : Env) (m c : gmap string pyval)
  (language : string) (lv pv iv : list Z) :
  m !! "content" = Some (VDict c) →
  c !! "language" = Some (VStr language) →
  String.prefix "python" language = true →
  c !! "language_version" = Some (VList (VInt <$> lv)) →
  c !! "protocol_version" = Some (VList (VInt <$> pv)) →
  c !! "ipython_version" = Some (VList (VInt <$> iv)) →
  V4toV5.kernel_info_reply (VDict m) =
    Ok (VDict (<["content" :=
                 VDict (<["banner" := VStr ""]>
                         (<["implementation_version" := VStr (version_list_to_str iv)]>
                           (<["implementation" := VStr "ipython"]>
                             (delete "ipython_version"
                               (<["protocol_version" := VStr (version_list_to_str pv)]>
                                 (<["language_version" := VStr (version_list_to_str lv)]>
                                   c))))))]> m)).
Proof.
  intros Hc Hlang Hpy Hlv Hpv Hiv.
  unfold V4toV5.kernel_info_reply. cbn [getitem]. rewrite Hc.
  cbn [mbind result_bind for_each].
  rewrite (convert_if_present_Some _ _ _ _ _ Hlv (version_list_to_str_val_ints E lv)).
  cbn [mbind result_bind].
  erewrite convert_if_present_Some;
    [|map_lookups; exact Hpv | apply version_list_to_str_val_ints].
  cbn [mbind result_bind].
  erewrite convert_if_present_Some;
    [|map_lookups; exact Hiv | apply version_list_to_str_val_ints].
  cbn [mbind result_bind getitem]. map_lookups. rewrite Hlang.
  cbn [mbind result_bind]. rewrite Hpy.
  erewrite contains_Some by (map_lookups; reflexivity).
  cbn [mbind result_bind setitem pop]. map_lookups. cbn [mbind result_bind setitem].
  do 3 f_equal. f_equal. map_eq_keys.
Qed.

Lemma kernel_info_reply_ipython_4_to_5_witness :
  @V4toV5.kernel_info_reply failing_env
    (dict [("content", VDict ipython_kernel_info_content)]) =
    Ok (dict [("content",
               dict [("language", VStr "python");
                     ("language_version", VStr "2.7.3");
                     ("protocol_version", VStr "4.1");
                     ("implementation", VStr "ipython");
                     ("implementation_version", VStr "2.0.0");
                     ("banner", VStr "")])]).
Proof.
  refine (eq_trans
            (kernel_info_reply_ipython_4_to_5 failing_env
               (list_to_map [("content", VDict ipython_kernel_info_content)])
               ipython_kernel_info_content "python" [2; 7; 3] [4; 1] [2; 0; 0]
               _ _ _ _ _ _) _);
    reflexivity.
Defined.

(** X13.  A [kernel_info_reply] of version 4 from an IPython kernel does not
    survive the way to version 5 and back: the reply of version 5 has
    [implementation] equal to [ipython] and an [implementation_version], and
    [V5toV4.kernel_info_reply] then pops the key [implmentation_version],
    which is not there, and raises KeyError. *)
Theorem kernel_info_reply_ipython_there_and_back (E : Env) (m c : gmap string pyval)
  (language : string) (lv pv iv : list Z) :
  m !! "content" = Some (VDict c) →
  c !! "language" = Some (VStr language) →
  String.prefix "python" language = true →
  c !! "language_version" = Some (VList (VInt <$> lv)) →
  c !! "protocol_version" = Some (VList (VInt <$> pv)) →
  c !! "ipython_version" = Some (VList (VInt <$> iv)) →
  c !! "implmentation_version" = None →
  (r ← V4toV5.kernel_info_reply (VDict m); V5toV4.kernel_info_reply r) = Err KeyError.
Proof.
  intros Hc Hlang Hpy Hlv Hpv Hiv Htypo.
  unfold V4toV5.kernel_info_reply. cbn [getitem]. rewrite Hc.
  cbn [mbind result_bind for_each].
  rewrite (convert_if_present_Some _ _ _ _ _ Hlv (version_list_to_str_val_ints E lv)).
  cbn [mbind result_bind].
  erewrite convert_if_present_Some;
    [|map_lookups; exact Hpv | apply version_list_to_str_val_ints].
  cbn [mbind result_bind].
  erewrite convert_if_present_Some;
    [|map_lookups; exact Hiv | apply version_list_to_str_val_ints].
  cbn [mbind result_bind getitem]. map_lookups. rewrite Hlang.
  cbn [mbind result_bind]. rewrite Hpy.
  erewrite contains_Some by (map_lookups; reflexivity).
  cbn [mbind result_bind setitem pop]. map_lookups. cbn [mbind result_bind setitem].
  unfold V5toV4.kernel_info_reply. cbn [getitem]. map_lookups.
  cbn [mbind result_bind pop_default for_each].
  erewrite convert_if_present_Some; [|map_lookups; reflexivity | reflexivity].
  cbn [mbind result_bind].
  erewrite convert_if_present_Some; [|map_lookups; reflexivity | reflexivity].
  cbn [mbind result_bind pop_default]. map_lookups.
  unfold default, id. cbn [is_str String.eqb Ascii.eqb Bool.eqb].
  erewrite contains_Some by (map_lookups; reflexivity).
  cbn [mbind result_bind pop]. map_lookups. rewrite Htypo. reflexivity.
Qed.

Lemma kernel_info_reply_ipython_there_and_back_witness :
  (r ← @V4toV5.kernel_info_reply failing_env
         (dict [("content", VDict ipython_kernel_info_content)]);
   V5toV4.kernel_info_reply r) = Err KeyError.
Proof.
  apply (kernel_info_reply_ipython_there_and_back failing_env
           (list_to_map [("content", VDict ipython_kernel_info_content)])
           ipython_kernel_info_content "python" [2; 7; 3] [4; 1] [2; 0; 0]);
    reflexivity.
Defined.

(** ** [V4toV5.inspect_reply], nothing found *)

(** X14.  When [found] is not true, [V4toV5.inspect_reply] returns the
    content [{status: "ok", found, name, data: {}, metadata: {}}]: [data] is
    empty and the definition and docstring fields are not read, whatever
    they hold. *)
Theorem inspect_reply_not_found (m c : gmap string pyval) (found name : pyval) :
  m !! "content" = Some (VDict c) →
  c !! "found" = Some found →
  truthy found = false →
  c !! "name" = Some name →
  V4toV5.inspect_reply (VDict m) =
    Ok (VDict (<["content" :=
                 dict [("status", VStr "ok");
                       ("found", found);
                       ("name", name);
                       ("data", dict []);
                       ("metadata", dict [])]]> m)).
Proof.
  intros Hc Hfound Hfalse Hname.
  unfold V4toV5.inspect_reply. cbn [getitem]. rewrite Hc.
  cbn [mbind result_bind getitem]. rewrite Hfound. cbn [mbind result_bind].
  rewrite Hname. cbn [mbind result_bind]. rewrite Hfalse. reflexivity.
Qed.

Lemma inspect_reply_not_found_witness :
  V4toV5.inspect_reply
    (dict [("content", dict [("found", VBool false); ("name", VStr "f");
                             ("docstring", VInt 7)])]) =
    Ok (dict [("content", dict [("status", VStr "ok");
                                ("found", VBool false);
                                ("name", VStr "f");
                                ("data", dict []);
                                ("metadata", dict [])])]).
Proof.
  refine (eq_trans
            (inspect_reply_not_found
               (list_to_map [("content", dict [("found", VBool false); ("name", VStr "f");
                                               ("docstring", VInt 7)])])
               (list_to_map [("found", VBool false); ("name", VStr "f");
                             ("docstring", VInt 7)])
               (VBool false) (VStr "f") _ _ _ _) _);
    reflexivity.
Defined.

(** ** [display_data] when the conversion returns *)

(** The steps of [display_data] after the one on [source], on a content
    whose [data] is the dict [d]. *)
Lemma display_data_steps (conv : pyval → result pyval) (m c d : gmap string pyval) :
  c !! "data" = Some (VDict d) →
  (data ← getitem (VDict c) "data";
   has_json ← contains "application/json" data;
   let data := if has_json : bool
               then try_pass (V5toV4.display_data_json conv data) data
               else data in
   content ← setitem (VDict c) "data" data;
   setitem (VDict m) "content" content) =
    Ok (VDict (<["content" :=
                 VDict (<["data" :=
                          VDict (match d !! "application/json" with
                                 | Some v =>
                                     match conv v with
                                     | Ok v' => <["application/json" := v']> d
                                     | Err _ => d
                                     end
                                 | None => d
                                 end)]> c)]> m)).
Proof.
  intros Hd. cbn [getitem]. rewrite Hd. cbn [mbind result_bind].
  destruct (d !! "application/json") as [v|] eqn:Hv.
  - rewrite (contains_Some _ _ _ Hv). cbn [mbind result_bind].
    unfold V5toV4.display_data_json. cbn [getitem]. rewrite Hv.
    cbn [mbind result_bind]. destruct (conv v) as [v'|e]; reflexivity.
  - rewrite (contains_None _ _ Hv). reflexivity.
Qed.

(** X15.  [display_data] on a content whose [data] is a dict.  Without an
    [application/json] entry the JSON conversion is not called and [data]
    is as it was; with an entry that the conversion accepts, the entry is
    replaced by the converted value and every other entry of [data] is as
    it was.  Besides [data], the content changes in [source] only, which
    gets the default [display] from 5 to 4 and is dropped from 4 to 5. *)
Theorem display_data_converted (E : Env) (m c d : gmap string pyval) :
  m !! "content" = Some (VDict c) →
  c !! "data" = Some (VDict d) →
  ∃ d54 d45 : gmap string pyval,
    V5toV4.display_data (VDict m) =
      Ok (VDict (<["content" :=
                   VDict (<["data" := VDict d54]>
                            (match c !! "source" with
                             | Some _ => c
                             | None => <["source" := VStr "display"]> c
                             end))]> m)) ∧
    V4toV5.display_data (VDict m) =
      Ok (VDict (<["content" := VDict (<["data" := VDict d45]> (delete "source" c))]> m)) ∧
    (d !! "application/json" = None → d54 = d ∧ d45 = d) ∧
    (∀ v v', d !! "application/json" = Some v → json_dumps v = Ok v' →
             d54 = <["application/json" := v']> d) ∧
    (∀ v v', d !! "application/json" = Some v → json_loads v = Ok v' →
             d45 = <["application/json" := v']> d).
Proof.
  intros Hc Hd.
  eexists _, _. split; [|split; [|split; [|split]]].
  - unfold V5toV4.display_data. cbn [getitem]. rewrite Hc.
    cbn [mbind result_bind setdefault].
    destruct (c !! "source") as [src|] eqn:Hsrc; cbn [mbind result_bind].
    + apply (display_data_steps json_dumps m c d Hd).
    + apply (display_data_steps json_dumps m _ d).
      rewrite lookup_insert_ne by discriminate. exact Hd.
  - unfold V4toV5.display_data. cbn [getitem]. rewrite Hc.
    cbn [mbind result_bind pop_default].
    apply (display_data_steps json_loads m _ d).
    rewrite lookup_delete_ne by discriminate. exact Hd.
  - intros ->. split; reflexivity.
  - intros v v' -> ->. reflexivity.
  - intros v v' -> ->. reflexivity.
Qed.

Lemma display_data_converted_witness :
  let msg := dict [("content", dict [("data", dict [("application/json", VInt 7);
                                                    ("text/plain", VStr "7")])])] in
  @V5toV4.display_data int_json_env msg =
    Ok (dict [("content", dict [("source", VStr "display");
                                ("data", dict [("application/json", VStr "7");
                                               ("text/plain", VStr "7")])])]).
Proof.
  intros msg.
  edestruct (display_data_converted int_json_env
               (list_to_map [("content", dict [("data", dict [("application/json", VInt 7);
                                                              ("text/plain", VStr "7")])])])
               (list_to_map [("data", dict [("application/json", VInt 7);
                                            ("text/plain", VStr "7")])])
               (list_to_map [("application/json", VInt 7); ("text/plain", VStr "7")]))
    as (d54 & d45 & H54 & _ & _ & Hdumps & _); [reflexivity | reflexivity |].
  rewrite (Hdumps (VInt 7) (VStr "7") eq_refl eq_refl) in H54. exact H54.
Defined.

(** X16.  [display_data] from version 5 to version 4 and back, when
    [json.loads] reads back what [json.dumps] wrote for the
    [application/json] entry: [data] comes back as it was, and the content
    comes back without [source]. *)
Theorem display_data_there_and_back (E : Env) (m c d : gmap string pyval)
  (v dumped : pyval) :
  m !! "content" = Some (VDict c) →
  c !! "data" = Some (VDict d) →
  d !! "application/json" = Some v →
  json_dumps v = Ok dumped →
  json_loads dumped = Ok v →
  (r ← V5toV4.display_data (VDict m); V4toV5.display_data r) =
    Ok (VDict (<["content" := VDict (delete "source" c)]> m)).
Proof.
  intros Hc Hd Hv Hdumps Hloads.
  unfold V5toV4.display_data. cbn [getitem]. rewrite Hc.
  cbn [mbind result_bind setdefault].
  assert (Hstep : ∀ c' : gmap string pyval,
            c' !! "data" = Some (VDict d) → delete "source" c' = delete "source" c →
            (r ← Ok (VDict (<["content" :=
                     VDict (<["data" := VDict (<["application/json" := dumped]> d)]> c')]> m));
             V4toV5.display_data r) =
              Ok (VDict (<["content" := VDict (delete "source" c)]> m))).
  { intros c' Hd' Hsame. cbn [mbind result_bind]. unfold V4toV5.display_data.
    cbn [getitem]. map_lookups. cbn [mbind result_bind pop_default].
    rewrite (display_data_steps json_loads _ _ (<["application/json" := dumped]> d))
      by (map_lookups; reflexivity).
    map_lookups. rewrite Hloads. rewrite !insert_insert_eq.
    rewrite (insert_id d _ _ Hv).
    rewrite delete_insert_ne by discriminate. rewrite insert_insert_eq, Hsame.
    rewrite (insert_id (delete "source" c))
      by (rewrite lookup_delete_ne by discriminate; exact Hd).
    reflexivity. }
  destruct (c !! "source") as [src|] eqn:Hsrc; cbn [mbind result_bind].
  - rewrite (display_data_steps json_dumps m c d Hd), Hv, Hdumps.
    apply Hstep; [exact Hd | reflexivity].
  - rewrite (display_data_steps json_dumps m _ d)
      by (rewrite lookup_insert_ne by discriminate; exact Hd).
    rewrite Hv, Hdumps. apply Hstep.
    + rewrite lookup_insert_ne by discriminate. exact Hd.
    + apply delete_insert_eq.
Qed.

Lemma display_data_there_and_back_witness :
  let msg := dict [("content", dict [("data", dict [("application/json", VInt 7);
                                                    ("text/plain", VStr "7")])])] in
  (r ← @V5toV4.display_data int_json_env msg; @V4toV5.display_data int_json_env r) =
    Ok msg.
Proof.
  intros msg.
  refine (eq_trans
            (display_data_there_and_back int_json_env
               (list_to_map [("content", dict [("data", dict [("application/json", VInt 7);
                                                              ("text/plain", VStr "7")])])])
               (list_to_map [("data", dict [("application/json", VInt 7);
                                            ("text/plain", VStr "7")])])
               (list_to_map [("application/json", VInt 7); ("text/plain", VStr "7")])
               (VInt 7) (VStr "7") _ _ _ _ _) _);
    reflexivity.
Defined.

(** ** The rename tables *)

Lemma msg_type_maps_inverse_aux (old new : string) :
  (V5toV4.msg_type_map !! old = Some new ↔ V4toV5.msg_type_map !! new = Some old) ∧
  (V5toV4.msg_type_map !! old = Some new → V5toV4.msg_type_map !! new = None) ∧
  (V4toV5.msg_type_map !! old = Some new → V4toV5.msg_type_map !! new = None).
Proof.
  split; [split|split]; intros H; apply elem_of_map_to_list in H;
    vm_compute map_to_list in H;
    repeat (apply elem_of_cons in H as [[= -> ->] | H]; [reflexivity|]);
    apply elem_of_nil in H; destruct H.
Qed.

(** X17.  The rename table of [V4toV5] is the inverse of the one of
    [V5toV4], and a name that a table renames to is not itself renamed by
    that table.  So renaming the type of a message from 5 to 4 and then from
    4 to 5, or the other way round, gives the type back. *)
Theorem msg_type_maps_inverse (old new : string) :
  (V5toV4.msg_type_map !! old = Some new ↔ V4toV5.msg_type_map !! new = Some old) ∧
  (V5toV4.msg_type_map !! old = Some new → V5toV4.msg_type_map !! new = None) ∧
  (V4toV5.msg_type_map !! old = Some new → V4toV5.msg_type_map !! new = None).
Proof. exact (msg_type_maps_inverse_aux old new). Qed.

(** ** What the content transforms leave alone *)

Lemma same_but_content_intro (m : gmap string pyval) (c : pyval) :
  same_but_content (VDict m) (VDict (<["content" := c]> m)).
Proof. exists m, c. split; reflexivity. Qed.

Ltac frame_step :=
  lazymatch goal with
  | |- returns_with _ (Ok (VDict (<["content" := _]> _))) =>
      apply returns_Ok, same_but_content_intro
  | |- returns_with _ (Err _) => apply returns_Err
  | |- returns_with _ (_ ≫= _) => apply returns_bind; intros ?
  | |- returns_with _ (setitem _ _ _) => cbn [setitem]
  | |- returns_with _ (if ?b then _ else _) => destruct b
  | |- returns_with _ (match ?x with _ => _ end) => destruct x
  end.

Ltac handler_frame :=
  let msg := fresh "msg" in
  intros msg; destruct msg;
  unfold V5toV4.kernel_info_reply, V5toV4.execute_request, V5toV4.execute_reply,
    V5toV4.complete_request, V5toV4.complete_reply, V5toV4.object_info_request,
    V5toV4.object_info_reply, V5toV4.display_data, V5toV4.input_request,
    V4toV5.kernel_info_reply, V4toV5.execute_request, V4toV5.execute_reply,
    V4toV5.complete_request, V4toV5.complete_reply, V4toV5.inspect_request,
    V4toV5.inspect_reply, V4toV5.display_data, V4toV5.input_request;
  repeat frame_step.

Lemma handlers_frame_aux (E : Env) (self : adapter) (name : string)
  (h : pyval → result pyval) :
  handlers self !! name = Some h →
  ∀ msg, returns_with (same_but_content msg) (h msg).
Proof.
  destruct self; cbn [handlers]; intros H.
  - rewrite lookup_empty in H. discriminate.
  - apply elem_of_list_to_map_2 in H.
    repeat (apply elem_of_cons in H as [[= _ ->] | H]; [handler_frame |]).
    apply elem_of_nil in H. destruct H.
  - apply elem_of_list_to_map_2 in H.
    repeat (apply elem_of_cons in H as [[= _ ->] | H]; [handler_frame |]).
    apply elem_of_nil in H. destruct H.
Qed.

(** X18.  A content transform of either adapter that returns has changed
    nothing but [msg['content']]: the message it returns is the message it
    was given, a dict, with a new value under [content]; [header],
    [parent_header], [metadata] and every other key are as they were. *)
Theorem handlers_frame (E : Env) (self : adapter) (name : string)
  (h : pyval → result pyval) (msg r : pyval) :
  handlers self !! name = Some h →
  h msg = Ok r →
  ∃ (m : gmap string pyval) (c : pyval),
    msg = VDict m ∧ r = VDict (<["content" := c]> m) ∧
    ∀ k, k ≠ "content" → getitem r k = getitem msg k.
Proof.
  intros Hh Hr.
  destruct (handlers_frame_aux E self name h Hh msg r Hr) as (m & c & -> & ->).
  exists m, c. split; [reflexivity|]. split; [reflexivity|].
  intros k Hk. cbn [getitem]. rewrite lookup_insert_ne by congruence. reflexivity.
Qed.

Lemma handlers_frame_witness :
  let msg := dict [("header", dict [("msg_type", VStr "input_request")]);
                   ("metadata", dict []);
                   ("content", dict [("prompt", VStr ">>> ")])] in
  ∃ (m : gmap string pyval) (c : pyval),
    msg = VDict m ∧
    V4toV5.input_request msg = Ok (VDict (<["content" := c]> m)).
Proof.
  intros msg.
  destruct (handlers_frame failing_env V4toV5 "input_request" V4toV5.input_request msg
              (dict [("header", dict [("msg_type", VStr "input_request")]);
                     ("metadata", dict []);
                     ("content", dict [("prompt", VStr ">>> ");
                                       ("password", VBool false)])])
              eq_refl eq_refl) as (m & c & Hm & Hr & _).
  exists m, c. split; [exact Hm|]. rewrite <- Hr. reflexivity.
Defined.

(** ** Message types without a transform *)

(** Proves [no_attribute self name] for a literal [name] in an environment
    whose [object_attr] computes. *)
Ltac no_attribute_literal :=
  split; [reflexivity|]; split; [|reflexivity];
  unfold class_attr_names; cbn [app]; rewrite !elem_of_cons, elem_of_nil;
  let H := fresh in
  intros H; repeat destruct H as [H|H]; try discriminate H; exact H.

Lemma class_attrs_names (self : adapter) (reenter : pyval → result pyval) (t : string) :
  class_attrs self reenter !! t = None ↔ t ∉ class_attr_names self.
Proof.
  unfold class_attrs. rewrite <- not_elem_of_list_to_map.
  destruct self; reflexivity.
Qed.

Lemma getattr_None (E : Env) (self : adapter) (reenter : pyval → result pyval)
  (t : string) :
  no_attribute self t → getattr self reenter (VStr t) = Ok None.
Proof.
  intros (Hh & Hc & Ho). cbn [getattr]. rewrite Hh.
  rewrite (proj2 (class_attrs_names self reenter t) Hc), Ho. reflexivity.
Qed.

Lemma header_msg_type_inv (msg tv : pyval) :
  header_msg_type msg = Some tv →
  ∃ (m h : gmap string pyval),
    msg = VDict m ∧ m !! "header" = Some (VDict h) ∧ h !! "msg_type" = Some tv.
Proof.
  destruct msg as [| | | | |m|]; try discriminate. cbn [header_msg_type].
  destruct (m !! "header") as [[| | | | |h|]|] eqn:Hh; try discriminate.
  intros Ht. exists m, h. auto.
Qed.

(** The steps of [__call__] after [update_header], on a message whose type
    is not renamed and names no attribute. *)
Lemma call_body_passes (E : Env) (reenter : pyval → result pyval) (self : adapter)
  (msg : pyval) (t : string) :
  header_msg_type msg = Some (VStr t) →
  msg_type_map self !! t = None →
  no_attribute self t →
  call_body reenter self msg = update_header self msg.
Proof.
  intros Ht Hmap Hno. unfold call_body.
  destruct (update_header self msg) as [m1|e] eqn:H1; [|reflexivity].
  cbn [mbind result_bind]. unfold update_metadata, Adapter.update_metadata.
  cbn [mbind result_bind].
  destruct (update_header_keeps self msg m1 H1) as [K1 _]. rewrite Ht in K1.
  apply header_msg_type_inv in K1 as (d & h & -> & Hh & Hty).
  unfold update_msg_type, Adapter.update_msg_type.
  cbn [getitem]. rewrite Hh. cbn [mbind result_bind getitem]. rewrite Hty.
  cbn [mbind result_bind in_map]. rewrite Hmap. cbn [mbind result_bind getitem].
  rewrite Hh. cbn [mbind result_bind getitem]. rewrite Hty. cbn [mbind result_bind].
  rewrite (getattr_None E self reenter t Hno). reflexivity.
Qed.

(** X19.  A message whose type the adapter neither renames nor has an
    attribute for passes through [__call__] with the header step alone:
    the call is [update_header], so from 5 to 4 the message comes back
    without [header['version']], from 4 to 5 with [header['version']] equal
    to ["5.0"], and with nothing else changed; [content] is not read. *)
Theorem unknown_type_passes (E : Env) (depth : nat) (self : adapter) (msg : pyval)
  (t : string) :
  header_msg_type msg = Some (VStr t) →
  msg_type_map self !! t = None →
  no_attribute self t →
  __call__ depth self msg = update_header self msg.
Proof.
  intros Ht Hmap Hno. destruct depth; cbn [__call__];
    exact (call_body_passes E _ self msg t Ht Hmap Hno).
Qed.

Lemma unknown_type_passes_witness :
  @__call__ failing_env 0 V5toV4
    (dict [("header", dict [("msg_type", VStr "status"); ("version", VStr "5.0")]);
           ("metadata", dict [])]) =
    Ok (dict [("header", dict [("msg_type", VStr "status")]);
              ("metadata", dict [])]).
Proof.
  refine (eq_trans
            (unknown_type_passes failing_env 0 V5toV4
               (dict [("header", dict [("msg_type", VStr "status"); ("version", VStr "5.0")]);
                      ("metadata", dict [])])
               "status" _ _ _) _); try reflexivity.
  no_attribute_literal.
Defined.

(** The steps of [__call__] on a message whose type is renamed to a name
    without attribute. *)
Lemma call_body_renamed (E : Env) (reenter : pyval → result pyval) (self : adapter)
  (msg : pyval) (t new : string) :
  header_msg_type msg = Some (VStr t) →
  msg_type_map self !! t = Some new →
  no_attribute self new →
  call_body reenter self msg = (m1 ← update_header self msg; update_msg_type self m1).
Proof.
  intros Ht Hmap Hno. unfold call_body.
  destruct (update_header self msg) as [m1|e] eqn:H1; [|reflexivity].
  cbn [mbind result_bind]. unfold update_metadata, Adapter.update_metadata.
  cbn [mbind result_bind].
  destruct (update_header_keeps self msg m1 H1) as [K1 _]. rewrite Ht in K1.
  apply header_msg_type_inv in K1 as (d & h & -> & Hh & Hty).
  unfold update_msg_type, Adapter.update_msg_type.
  cbn [getitem]. rewrite Hh. cbn [mbind result_bind getitem]. rewrite Hty.
  cbn [mbind result_bind in_map]. rewrite Hmap. cbn [mbind result_bind setitem getitem].
  map_lookups. cbn [mbind result_bind getitem]. map_lookups. cbn [mbind result_bind].
  rewrite (getattr_None E self reenter new Hno). reflexivity.
Qed.

(** X20.  A message whose type the adapter renames to a name for which it
    has no attribute (from 4 to 5: [pyout], [pyin], [pyerr]; from 5 to 4:
    [execute_result], [execute_input], [error]) passes through [__call__]
    with the header step and the rename alone; [content] is not read. *)
Theorem renamed_type_passes (E : Env) (depth : nat) (self : adapter) (msg : pyval)
  (t new : string) :
  header_msg_type msg = Some (VStr t) →
  msg_type_map self !! t = Some new →
  no_attribute self new →
  __call__ depth self msg = (m1 ← update_header self msg; update_msg_type self m1).
Proof.
  intros Ht Hmap Hno. destruct depth; cbn [__call__];
    exact (call_body_renamed E _ self msg t new Ht Hmap Hno).
Qed.

Lemma renamed_type_passes_witness :
  @__call__ failing_env 0 V4toV5
    (dict [("header", dict [("msg_type", VStr "pyout")]);
           ("msg_type", VStr "pyout");
           ("content", dict [("execution_count", VInt 1)])]) =
    Ok (dict [("header", dict [("msg_type", VStr "execute_result");
                               ("version", VStr "5.0")]);
              ("msg_type", VStr "execute_result");
              ("content", dict [("execution_count", VInt 1)])]).
Proof.
  refine (eq_trans
            (renamed_type_passes failing_env 0 V4toV5
               (dict [("header", dict [("msg_type", VStr "pyout")]);
                      ("msg_type", VStr "pyout");
                      ("content", dict [("execution_count", VInt 1)])])
               "pyout" "execute_result" _ _ _) _); try reflexivity.
  no_attribute_literal.
Defined.

(** ** [adapt], there and back *)




(** ** An [inspect_reply] of version 5 *)

(** X22.  An [inspect_reply] of version 5 whose status is neither [error]
    nor [aborted], adapted by [V5toV4]: the header loses [version], both
    copies of the message type become [object_info_reply], the transform
    registered under that new name runs, and the content is the fixed stub
    [{found: False, name: "unknown"}], whatever the reply held. *)
Theorem inspect_reply_5_to_4 (E : Env) (depth : nat) (m h c : gmap string pyval) :
  m !! "header" = Some (VDict h) →
  h !! "msg_type" = Some (VStr "inspect_reply") →
  m !! "content" = Some (VDict c) →
  in_error_statuses (default VNone (c !! "status")) = Ok false →
  __call__ depth V5toV4 (VDict m) =
    Ok (VDict (<["content" := dict [("found", VBool false); ("name", VStr "unknown")]]>
              (<["header" := VDict (<["msg_type" := VStr "object_info_reply"]>
                                      (delete "version" h))]>
              (<["msg_type" := VStr "object_info_reply"]> m)))).
Proof.
  intros Hh Hty Hc Hstatus.
  assert (Hbody : ∀ reenter, call_body reenter V5toV4 (VDict m) =
    Ok (VDict (<["content" := dict [("found", VBool false); ("name", VStr "unknown")]]>
              (<["header" := VDict (<["msg_type" := VStr "object_info_reply"]>
                                      (delete "version" h))]>
              (<["msg_type" := VStr "object_info_reply"]> m))))).
  { intros reenter. unfold call_body.
    cbn [update_header]. unfold V5toV4.update_header.
    cbn [getitem]. rewrite Hh. cbn [mbind result_bind pop_default setitem].
    unfold update_metadata, Adapter.update_metadata. cbn [mbind result_bind].
    unfold update_msg_type, Adapter.update_msg_type. cbn [getitem]. map_lookups.
    cbn [mbind result_bind getitem]. map_lookups. rewrite Hty.
    cbn [mbind result_bind in_map msg_type_map].
    change (V5toV4.msg_type_map !! "inspect_reply") with (Some "object_info_reply").
    cbn [mbind result_bind setitem getitem]. map_lookups.
    cbn [mbind result_bind getitem]. map_lookups.
    cbn [mbind result_bind getattr handlers].
    change (V5toV4.handlers !! "object_info_reply") with (Some V5toV4.object_info_reply).
    cbn [mbind result_bind getitem]. map_lookups. rewrite Hc.
    cbn [mbind result_bind get_default]. rewrite Hstatus.
    cbn [mbind result_bind]. unfold V5toV4.object_info_reply. cbn [setitem].
    do 2 f_equal. unfold dict. cbn [list_to_map foldr uncurry fst snd].
    map_eq_keys. }
  destruct depth; cbn [__call__]; apply Hbody.
Qed.

Lemma inspect_reply_5_to_4_witness :
  @adapt failing_env 0
    (dict [("header", dict [("msg_type", VStr "inspect_reply"); ("version", VStr "5.0")]);
           ("msg_type", VStr "inspect_reply");
           ("content", dict [("status", VStr "ok"); ("found", VBool true);
                             ("data", dict [("text/plain", VStr "f(x)")])])]) 4 =
    Ok (dict [("header", dict [("msg_type", VStr "object_info_reply")]);
              ("msg_type", VStr "object_info_reply");
              ("content", dict [("found", VBool false); ("name", VStr "unknown")])]).
Proof.
  refine (eq_trans
            (inspect_reply_5_to_4 failing_env 0
               (list_to_map
                  [("header", dict [("msg_type", VStr "inspect_reply");
                                    ("version", VStr "5.0")]);
                   ("msg_type", VStr "inspect_reply");
                   ("content", dict [("status", VStr "ok"); ("found", VBool true);
                                     ("data", dict [("text/plain", VStr "f(x)")])])])
               (list_to_map [("msg_type", VStr "inspect_reply"); ("version", VStr "5.0")])
               (list_to_map [("status", VStr "ok"); ("found", VBool true);
                             ("data", dict [("text/plain", VStr "f(x)")])])
               _ _ _ _) _); reflexivity.
Defined.

(** ** [complete_request] and [inspect_request], there and back *)

Lemma splitlines_one_line (s : string) :
  s ≠ "" → one_line s → splitlines s = [s].
Proof.
  unfold one_line. induction s as [|c r IH]; [congruence|]. intros _ H.
  cbn [list_ascii_of_string] in H. apply Forall_cons in H as [Hc Hr].
  cbn [splitlines]. rewrite Hc.
  destruct r as [|c' r']; [reflexivity|].
  rewrite IH by (discriminate || exact Hr). reflexivity.
Qed.

Lemma code_to_line_returns (s : string) (pos : Z) :
  s ≠ "" → ∃ line rel, code_to_line s pos = Ok (line, rel).
Proof.
  intros Hs. unfold code_to_line.
  destruct (code_to_line_loop_spec (splitlines s) None pos (splitlines_nonempty s Hs))
    as (before & line & after & _ & [(-> & _) | (_ & -> & _)]); eauto.
Qed.

(** X23.  A [complete_request] of version 4 whose [line] is one non-empty
    line and whose [cursor_pos] is a number not beyond the end of the line,
    adapted to version 5 and back: [line] and [cursor_pos] come back as they
    were, [text] comes back empty and [block] comes back as [None]. *)
Theorem complete_request_there_and_back (m c : gmap string pyval) (line : string)
  (cursor_pos : pyval) (p : Z) :
  m !! "content" = Some (VDict c) →
  c !! "line" = Some (VStr line) →
  c !! "cursor_pos" = Some cursor_pos →
  line ≠ "" → one_line line →
  as_int cursor_pos = Some p → p <= len line →
  (r ← V4toV5.complete_request (VDict m); V5toV4.complete_request r) =
    Ok (VDict (<["content" :=
                 dict [("text", VStr "");
                       ("line", VStr line);
                       ("block", VNone);
                       ("cursor_pos", cursor_pos)]]> m)).
Proof.
  intros Hc Hline Hpos Hne Hone Hp Hle.
  unfold V4toV5.complete_request. cbn [getitem]. rewrite Hc.
  cbn [mbind result_bind getitem]. rewrite Hline. cbn [mbind result_bind].
  rewrite Hpos. cbn [mbind result_bind setitem].
  unfold V5toV4.complete_request. cbn [getitem]. map_lookups.
  cbn [mbind result_bind getitem]. map_lookups. cbn [mbind result_bind].
  unfold code_to_line_val, code_to_line.
  rewrite (splitlines_one_line line Hne Hone), Hp.
  rewrite code_to_line_loop_first by exact Hle.
  cbn [mbind result_bind]. rewrite Z.eqb_refl. cbn [setitem].
  rewrite insert_insert_eq. reflexivity.
Qed.

Lemma complete_request_there_and_back_witness :
  let content := dict [("text", VStr ""); ("line", VStr "imp"); ("block", VNone);
                       ("cursor_pos", VInt 3)] in
  (r ← V4toV5.complete_request (dict [("content", content)]);
   V5toV4.complete_request r) = Ok (dict [("content", content)]).
Proof.
  intros content.
  refine (eq_trans
            (complete_request_there_and_back
               (list_to_map [("content", content)])
               (list_to_map [("text", VStr ""); ("line", VStr "imp"); ("block", VNone);
                             ("cursor_pos", VInt 3)])
               "imp" (VInt 3) 3 _ _ _ _ _ _ _) _);
    first [reflexivity | discriminate | (unfold len; simpl; lia)
          | repeat constructor].
Defined.

(** X24.  An [object_info_request] of version 4 for a non-empty name,
    adapted to version 5 and back: [detail_level] comes back as it was, and
    [oname] comes back as what [token_at_cursor] finds in the name with the
    cursor at its end.  For the empty name the way back raises
    UnboundLocalError. *)
Theorem inspect_request_there_and_back (E : Env) (m c : gmap string pyval)
  (oname : string) (detail_level : pyval) :
  m !! "content" = Some (VDict c) →
  c !! "oname" = Some (VStr oname) →
  c !! "detail_level" = Some detail_level →
  (oname = "" →
   (r ← V4toV5.inspect_request (VDict m); V5toV4.object_info_request r) =
     Err UnboundLocalError) ∧
  (oname ≠ "" →
   (r ← V4toV5.inspect_request (VDict m); V5toV4.object_info_request r) =
     (token ← token_at_cursor (VStr oname) (VInt (len oname));
      Ok (VDict (<["content" :=
                   dict [("oname", token); ("detail_level", detail_level)]]> m)))).
Proof.
  intros Hc Hname Hdl.
  assert (Hfwd : (r ← V4toV5.inspect_request (VDict m); V5toV4.object_info_request r) =
                 (_ ← code_to_line_val (VStr oname) (VInt (len oname));
                  token ← token_at_cursor (VStr oname) (VInt (len oname));
                  Ok (VDict (<["content" :=
                    dict [("oname", token); ("detail_level", detail_level)]]> m)))).
  { unfold V4toV5.inspect_request. cbn [getitem]. rewrite Hc.
    cbn [mbind result_bind getitem]. rewrite Hname.
    cbn [mbind result_bind py_len]. rewrite Hdl. cbn [mbind result_bind setitem].
    unfold V5toV4.object_info_request. cbn [getitem]. map_lookups.
    cbn [mbind result_bind getitem]. map_lookups. cbn [mbind result_bind].
    destruct (code_to_line_val _ _); [|reflexivity]. cbn [mbind result_bind].
    destruct (token_at_cursor _ _); [|reflexivity]. cbn [mbind result_bind setitem].
    rewrite insert_insert_eq. reflexivity. }
  rewrite Hfwd. split.
  - intros ->. reflexivity.
  - intros Hne. unfold code_to_line_val.
    pose proof (splitlines_nonempty oname Hne) as Hlines.
    destruct (splitlines oname) as [|l ls] eqn:Hsplit; [congruence|].
    cbn [as_int].
    destruct (code_to_line_returns oname (len oname) Hne) as (line & rel & ->).
    reflexivity.
Qed.

Lemma inspect_request_there_and_back_witness :
  (r ← V4toV5.inspect_request
         (dict [("content", dict [("oname", VStr "np.sum"); ("detail_level", VInt 0)])]);
   @V5toV4.object_info_request failing_env r) =
    Ok (dict [("content", dict [("oname", VStr ""); ("detail_level", VInt 0)])]).
Proof.
  refine (eq_trans
            (proj2 (inspect_request_there_and_back failing_env
               (list_to_map [("content", dict [("oname", VStr "np.sum");
                                               ("detail_level", VInt 0)])])
               (list_to_map [("oname", VStr "np.sum"); ("detail_level", VInt 0)])
               "np.sum" (VInt 0) _ _ _) _) _);
    first [reflexivity | discriminate].
Defined.

(** ** [V5toV4.kernel_info_reply] without [language] *)

(** X25.  [V5toV4.kernel_info_reply] needs the key [language]: on a reply
    that is not from IPython, whose version fields are str where present
    and which has no [language], the transform raises KeyError when it
    computes the default of the [implmentation] key. *)
Theorem kernel_info_reply_no_language (m c : gmap string pyval) :
  m !! "content" = Some (VDict c) →
  c !! "language" = None →
  is_str "ipython" (default (VStr "") (c !! "implementation")) = false →
  (∀ key v, key ∈ ["language_version"; "protocol_version"] →
            c !! key = Some v → ∃ s, v = VStr s) →
  V5toV4.kernel_info_reply (VDict m) = Err KeyError.
Proof.
  intros Hc Hlang Himpl Hver.
  assert (Hconv : ∀ key (d : gmap string pyval),
            (∀ v, d !! key = Some v → ∃ s, v = VStr s) →
            ∃ d', convert_if_present _version_str_to_list_val key (VDict d) = Ok (VDict d') ∧
                  ∀ k, k ≠ key → d' !! k = d !! k).
  { intros key d Hd. destruct (d !! key) as [v|] eqn:Hv.
    - destruct (Hd v eq_refl) as [s ->].
      eexists. split; [exact (convert_if_present_Some _ _ _ _ _ Hv eq_refl)|].
      intros k Hk. apply lookup_insert_ne. congruence.
    - exists d. split; [exact (convert_if_present_None _ _ _ Hv) | reflexivity]. }
  unfold V5toV4.kernel_info_reply. cbn [getitem]. rewrite Hc.
  cbn [mbind result_bind pop_default for_each].
  destruct (Hconv "language_version" (delete "banner" c)) as (d1 & -> & Hd1).
  { intros v. rewrite lookup_delete_ne by discriminate. apply Hver. left. }
  cbn [mbind result_bind].
  destruct (Hconv "protocol_version" d1) as (d2 & -> & Hd2).
  { intros v. rewrite Hd1, lookup_delete_ne by discriminate.
    apply Hver. right. left. }
  cbn [mbind result_bind pop_default].
  assert (Hl : ∀ k, k ≠ "banner" → k ≠ "language_version" → k ≠ "protocol_version" →
               d2 !! k = c !! k).
  { intros k ? ? ?. rewrite Hd2, Hd1 by assumption. apply lookup_delete_ne. congruence. }
  rewrite (Hl "implementation") by discriminate. rewrite Himpl.
  cbn [mbind result_bind pop_default getitem]. map_lookups.
  rewrite (Hl "language"), Hlang by discriminate. reflexivity.
Qed.

Lemma kernel_info_reply_no_language_witness :
  V5toV4.kernel_info_reply
    (dict [("content", dict [("protocol_version", VStr "5.0");
                             ("implementation", VStr "ijulia");
                             ("banner", VStr "")])]) = Err KeyError.
Proof.
  apply (kernel_info_reply_no_language
           (list_to_map [("content", dict [("protocol_version", VStr "5.0");
                                           ("implementation", VStr "ijulia");
                                           ("banner", VStr "")])])
           (list_to_map [("protocol_version", VStr "5.0");
                         ("implementation", VStr "ijulia");
                         ("banner", VStr "")])); try reflexivity.
  intros key v Hk Hv.
  repeat (apply elem_of_cons in Hk as [-> | Hk];
          [vm_compute in Hv; first [discriminate | injection Hv as <-; eauto] |]).
  apply elem_of_nil in Hk. destruct Hk.
Defined.

(** ** What an adapter leaves alone *)

Lemma same_but_adapted_trans (f g : option pyval → option pyval) (a b c : pyval) :
  same_but_adapted f a b → same_but_adapted g b c →
  same_but_adapted (fun v => g (f v)) a c.
Proof.
  intros (m & d & h & h' & -> & -> & Hh & Hh' & Hout & Hin & Hv)
         (m2 & d2 & h2 & h2' & [= <-] & -> & Hh2 & Hh2' & Hout2 & Hin2 & Hv2).
  rewrite Hh' in Hh2. injection Hh2 as <-.
  exists m, d2, h, h2'. repeat split; try assumption.
  - intros k ? ? ?. rewrite Hout2, Hout by assumption. reflexivity.
  - intros k ? ?. rewrite Hin2, Hin by assumption. reflexivity.
  - rewrite Hv2, Hv. reflexivity.
Qed.

Lemma same_but_adapted_ext (f g : option pyval → option pyval) (a b : pyval) :
  (∀ v, f v = g v) → same_but_adapted f a b → same_but_adapted g a b.
Proof.
  intros Hfg (m & d & h & h' & -> & -> & Hh & Hh' & Hout & Hin & Hv).
  exists m, d, h, h'. repeat split; try assumption. rewrite <- Hfg. exact Hv.
Qed.

Lemma version_after_idem (self : adapter) (v : option pyval) :
  version_after self (version_after self v) = version_after self v.
Proof. destruct self; reflexivity. Qed.

Lemma same_but_adapted_refl (m h : gmap string pyval) :
  m !! "header" = Some (VDict h) → same_but_adapted id (VDict m) (VDict m).
Proof. intros Hh. exists m, m, h, h. repeat split; auto. Qed.

Lemma update_header_adapted (self : adapter) (msg r : pyval) :
  header_msg_type msg ≠ None →
  update_header self msg = Ok r →
  same_but_adapted (version_after self) msg r.
Proof.
  intros Hty Hr.
  destruct (header_msg_type msg) as [tv|] eqn:Htv; [|congruence].
  apply header_msg_type_inv in Htv as (m & h & -> & Hh & _).
  destruct self; cbn [update_header] in Hr.
  - injection Hr as <-. exact (same_but_adapted_refl m h Hh).
  - unfold V5toV4.update_header in Hr. cbn [getitem] in Hr. rewrite Hh in Hr.
    injection Hr as <-. eexists m, _, h, _.
    split; [reflexivity|]. split; [reflexivity|]. split; [exact Hh|].
    split; [apply lookup_insert_eq|]. repeat split.
    + intros k ? ? ?. apply lookup_insert_ne. congruence.
    + intros k ? ?. apply lookup_delete_ne. congruence.
    + apply lookup_delete_eq.
  - unfold V4toV5.update_header in Hr. cbn [getitem] in Hr. rewrite Hh in Hr.
    injection Hr as <-. eexists m, _, h, _.
    split; [reflexivity|]. split; [reflexivity|]. split; [exact Hh|].
    split; [apply lookup_insert_eq|]. repeat split.
    + intros k ? ? ?. apply lookup_insert_ne. congruence.
    + intros k ? ?. apply lookup_insert_ne. congruence.
    + apply lookup_insert_eq.
Qed.

Lemma update_msg_type_adapted (self : adapter) (msg r : pyval) :
  update_msg_type self msg = Ok r → same_but_adapted id msg r.
Proof.
  unfold update_msg_type, Adapter.update_msg_type. intros Hr.
  destruct msg as [| | | | |m|]; try discriminate. cbn [getitem] in Hr.
  destruct (m !! "header") as [header|] eqn:Hh; [|discriminate].
  destruct header as [| | | | |h|]; try discriminate.
  cbn [mbind result_bind getitem] in Hr.
  destruct (h !! "msg_type") as [tv|] eqn:Ht; [|discriminate].
  cbn [mbind result_bind] in Hr.
  destruct (in_map tv (msg_type_map self)) as [[new|]|] eqn:Hmap;
    cbn [mbind result_bind setitem] in Hr; try discriminate; injection Hr as <-.
  - eexists m, _, h, _.
    split; [reflexivity|]. split; [reflexivity|]. split; [exact Hh|].
    split; [apply lookup_insert_eq|]. repeat split.
    + intros k ? ? ?. rewrite !lookup_insert_ne by congruence. reflexivity.
    + intros k ? ?. apply lookup_insert_ne. congruence.
    + apply lookup_insert_ne. discriminate.
  - exact (same_but_adapted_refl m h Hh).
Qed.

Lemma same_but_content_adapted (msg r : pyval) :
  header_msg_type msg ≠ None → same_but_content msg r → same_but_adapted id msg r.
Proof.
  intros Hty (m & c & -> & ->).
  destruct (header_msg_type (VDict m)) as [tv|] eqn:Htv; [|congruence].
  apply header_msg_type_inv in Htv as (m' & h & [= <-] & Hh & _).
  exists m, (<["content" := c]> m), h, h. repeat split; auto.
  - rewrite lookup_insert_ne by discriminate. exact Hh.
  - intros k ? ? ?. apply lookup_insert_ne. congruence.
Qed.

(** What the other attributes of the class do when [__call__] finds them
    under the message type: the header step again, nothing, or the call
    itself. *)
Lemma class_attr_cases (self : adapter) (reenter : pyval → result pyval)
  (s : string) (f : pyval → result pyval) (m r : pyval) :
  class_attrs self reenter !! s = Some f →
  header_msg_type m = Some (VStr s) →
  f m = Ok r →
  update_header self m = Ok r ∨ r = m ∨ (s = "__call__" ∧ reenter m = Ok r).
Proof.
  intros Hf Ht Hr. unfold class_attrs in Hf.
  apply elem_of_list_to_map_2 in Hf.
  assert (Hcases : (s, f) ∈ [("msg_type_map", not_callable);
                             ("update_header", update_header self);
                             ("update_metadata", update_metadata self);
                             ("update_msg_type", update_msg_type self);
                             ("handle_reply_status_error",
                               fun msg => call_bound handle_reply_status_error self [msg]);
                             ("__call__", reenter);
                             ("version", not_callable)]).
  { destruct self; cbn [app] in Hf; rewrite !elem_of_cons in *; tauto. }
  clear Hf.
  apply elem_of_cons in Hcases as [[= -> ->] | Hcases]; [discriminate|].
  apply elem_of_cons in Hcases as [[= -> ->] | Hcases]; [left; exact Hr|].
  apply elem_of_cons in Hcases as [[= -> ->] | Hcases].
  { right. left. injection Hr as <-. reflexivity. }
  apply elem_of_cons in Hcases as [[= -> ->] | Hcases].
  { right. left. apply update_msg_type_spec in Hr as (tv & Htv & [Hren | [_ ->]]);
      [|reflexivity].
    destruct Hren as (t & new & -> & Hmap & _).
    rewrite Ht in Htv. injection Htv as <-.
    rewrite (proj1 (not_renamed_update_msg_type self)) in Hmap. discriminate. }
  apply elem_of_cons in Hcases as [[= -> ->] | Hcases]; [discriminate|].
  apply elem_of_cons in Hcases as [[= -> ->] | Hcases]; [right; right; auto|].
  apply elem_of_cons in Hcases as [[= -> ->] | Hcases]; [discriminate|].
  apply elem_of_nil in Hcases. destruct Hcases.
Qed.

(** The steps a returning [__call__] went through. *)
Lemma call_body_inv (E : Env) (reenter : pyval → result pyval) (self : adapter)
  (msg r : pyval) :
  call_body reenter self msg = Ok r →
  ∃ m1 m2 s,
    update_header self msg = Ok m1 ∧
    update_msg_type self m1 = Ok m2 ∧
    header_msg_type msg ≠ None ∧
    header_msg_type m2 = Some (VStr s) ∧
    dispatch_name self msg = Some s ∧
    ((getattr self reenter (VStr s) = Ok None ∧ r = m2) ∨
     ∃ f, getattr self reenter (VStr s) = Ok (Some f) ∧ f m2 = Ok r).
Proof.
  intros Hrun. unfold call_body in Hrun.
  apply bind_Ok in Hrun as (m1 & H1 & Hrun).
  apply bind_Ok in Hrun as (m1' & [= <-] & Hrun).
  apply bind_Ok in Hrun as (m2 & H2 & Hrun).
  apply bind_Ok in Hrun as (header & Hh & Hrun).
  apply bind_Ok in Hrun as (tv2 & Ht2 & Hrun).
  apply bind_Ok in Hrun as (handler & Hg & Hrun).
  pose proof (getitem_msg_type _ _ _ Hh Ht2) as Hm2.
  destruct tv2 as [| | |s| | |]; try discriminate.
  pose proof (update_header_keeps self msg m1 H1) as [K1 _].
  exists m1, m2, s. split; [exact H1|]. split; [exact H2|].
  assert (Hname : header_msg_type msg ≠ None ∧ dispatch_name self msg = Some s).
  { pose proof H2 as H2'.
    apply update_msg_type_spec in H2' as (tv & Htv & [Hren | [Hno ->]]).
    - destruct Hren as (t & new & -> & Hmap & Hhd & _).
      rewrite Hm2 in Hhd. injection Hhd as ->.
      unfold dispatch_name. rewrite <- K1, Htv, Hmap. split; [discriminate | reflexivity].
    - rewrite Hm2 in Htv. injection Htv as <-.
      unfold dispatch_name. rewrite <- K1, Hm2, (Hno s eq_refl).
      split; [discriminate | reflexivity]. }
  destruct Hname as [Hsome Hdisp].
  split; [exact Hsome|]. split; [exact Hm2|]. split; [exact Hdisp|].
  destruct handler as [f|].
  - right. exists f. split; [exact Hg|].
    apply bind_Ok in Hrun as (content & _ & Hrun).
    apply bind_Ok in Hrun as (status & _ & Hrun).
    apply bind_Ok in Hrun as (is_error & _ & Hrun).
    destruct is_error; [discriminate | exact Hrun].
  - left. injection Hrun as <-. split; [exact Hg | reflexivity].
Qed.

Lemma call_body_adapted (E : Env) (reenter : pyval → result pyval) (self : adapter)
  (msg r : pyval) :
  (∀ m r', header_msg_type m = Some (VStr "__call__") →
           object_attr self "__call__" = None →
           reenter m = Ok r' → same_but_adapted (version_after self) m r') →
  call_body reenter self msg = Ok r →
  (∀ n, dispatch_name self msg = Some n → object_attr self n = None) →
  same_but_adapted (version_after self) msg r.
Proof.
  intros Hre Hrun Hobj.
  apply call_body_inv in Hrun
    as (m1 & m2 & s & H1 & H2 & Hsome & Hm2 & Hdisp & Hhandler).
  pose proof (update_header_adapted self msg m1 Hsome H1) as A1.
  pose proof (update_msg_type_adapted self m1 m2 H2) as A2.
  pose proof (same_but_adapted_trans _ _ _ _ _ A1 A2) as A12. cbn [id] in A12.
  assert (Hm2some : header_msg_type m2 ≠ None) by (rewrite Hm2; discriminate).
  destruct Hhandler as [[_ ->] | (f & Hg & Hr)]; [exact A12|].
  cbn [getattr] in Hg. injection Hg as Hg.
  destruct (handlers self !! s) as [h|] eqn:Hhandler.
  { injection Hg as <-.
    pose proof (same_but_content_adapted m2 r Hm2some
                  (handlers_frame_aux E self s h Hhandler m2 r Hr)) as A3.
    exact (same_but_adapted_trans _ _ _ _ _ A12 A3). }
  destruct (class_attrs self reenter !! s) as [a|] eqn:Hattr.
  { injection Hg as <-.
    destruct (class_attr_cases self reenter s a m2 r Hattr Hm2 Hr)
      as [Hup | [-> | [-> Hcall]]].
    - pose proof (update_header_adapted self m2 r Hm2some Hup) as A3.
      apply (same_but_adapted_ext _ _ _ _ (version_after_idem self)).
      exact (same_but_adapted_trans _ _ _ _ _ A12 A3).
    - exact A12.
    - pose proof (Hre m2 r Hm2 (Hobj _ Hdisp) Hcall) as A3.
      apply (same_but_adapted_ext _ _ _ _ (version_after_idem self)).
      exact (same_but_adapted_trans _ _ _ _ _ A12 A3). }
  rewrite (Hobj s Hdisp) in Hg. discriminate.
Qed.

(** X26.  When an adapter returns [r] for [msg], and the name the handler
    is looked up under is not an attribute inherited from [object]: [r] is
    a dict with the keys of [msg] other than [header], [msg_type] and
    [content] as they were ([parent_header], [metadata], [buffers], ...);
    its header has every key other than [version] and [msg_type] as it was
    ([msg_id], [session], [username], [date], ...); and
    [header['version']] is absent after [V5toV4] and ["5.0"] after
    [V4toV5]. *)
Theorem adapter_frame (E : Env) (depth : nat) (self : adapter) (msg r : pyval) :
  __call__ depth self msg = Ok r →
  (∀ n, dispatch_name self msg = Some n → object_attr self n = None) →
  ∃ m d h h' : gmap string pyval,
    msg = VDict m ∧ r = VDict d ∧
    m !! "header" = Some (VDict h) ∧ d !! "header" = Some (VDict h') ∧
    (∀ k, k ≠ "header" → k ≠ "msg_type" → k ≠ "content" → d !! k = m !! k) ∧
    (∀ k, k ≠ "version" → k ≠ "msg_type" → h' !! k = h !! k) ∧
    h' !! "version" = match self with
                      | Adapter => h !! "version"
                      | V5toV4 => None
                      | V4toV5 => Some (VStr "5.0")
                      end.
Proof.
  assert (H : same_but_adapted (version_after self) msg r →
              ∃ m d h h' : gmap string pyval,
                msg = VDict m ∧ r = VDict d ∧
                m !! "header" = Some (VDict h) ∧ d !! "header" = Some (VDict h') ∧
                (∀ k, k ≠ "header" → k ≠ "msg_type" → k ≠ "content" → d !! k = m !! k) ∧
                (∀ k, k ≠ "version" → k ≠ "msg_type" → h' !! k = h !! k) ∧
                h' !! "version" = match self with
                                  | Adapter => h !! "version"
                                  | V5toV4 => None
                                  | V4toV5 => Some (VStr "5.0")
                                  end).
  { intros (m & d & h & h' & ? & ? & ? & ? & ? & ? & Hv).
    exists m, d, h, h'. repeat split; try assumption.
    all: rewrite Hv; destruct self; reflexivity. }
  intros Hrun Hobj. apply H. clear H.
  revert msg r Hrun Hobj. induction depth as [|d IH]; intros msg r Hrun Hobj.
  all: cbn [__call__] in Hrun.
  all: eapply call_body_adapted; [|exact Hrun|exact Hobj].
  - intros m r' _ _ Hr. discriminate.
  - intros m r' Hm Hnone Hr. apply (IH m r' Hr).
    intros n Hn. unfold dispatch_name in Hn. rewrite Hm in Hn.
    rewrite (proj2 (not_renamed_update_msg_type self)) in Hn.
    injection Hn as <-. exact Hnone.
Qed.

Lemma adapter_frame_witness :
  let msg := dict [("header", dict [("msg_type", VStr "execute_request");
                                    ("msg_id", VStr "1")]);
                   ("parent_header", dict []);
                   ("metadata", dict []);
                   ("content", dict [("code", VStr "1")])] in
  let r := dict [("header", dict [("msg_type", VStr "execute_request");
                                  ("msg_id", VStr "1");
                                  ("version", VStr "5.0")]);
                 ("parent_header", dict []);
                 ("metadata", dict []);
                 ("content", dict [("code", VStr "1"); ("user_expressions", dict [])])] in
  @__call__ failing_env 0 V4toV5 msg = Ok r ∧
  ∃ m d h h' : gmap string pyval,
    msg = VDict m ∧ r = VDict d ∧
    m !! "header" = Some (VDict h) ∧ d !! "header" = Some (VDict h') ∧
    (∀ k, k ≠ "header" → k ≠ "msg_type" → k ≠ "content" → d !! k = m !! k) ∧
    (∀ k, k ≠ "version" → k ≠ "msg_type" → h' !! k = h !! k) ∧
    h' !! "version" = Some (VStr "5.0").
Proof.
  intros msg r. split; [reflexivity|].
  apply (adapter_frame failing_env 0 V4toV5 msg r); [reflexivity|].
  intros n _. reflexivity.
Defined.
